(** * Stock and price reconciliation of the seller / market synchronisers

    A shallow embedding of [seller.py] and [market.py]: the reconciliation
    of the feed of watch remnants against a marketplace's offer list
    ([create_stocks], [create_prices]), the price normaliser
    ([price_conversion]), the batcher ([divide]) and the two orchestrating
    functions the properties below speak about ([upload_stocks], [main]).

    Conventions of the embedding.
    - A Python [str] is a [string]: the sequence of the bytes of its UTF-8
      encoding.  Equality, [split] on an ASCII separator and the removal of
      every character outside an ASCII class commute with that encoding.
    - Python exceptions are values of [exn]; a computation that may raise
      has type [result A].
    - The list object [offer_ids] that [create_stocks] mutates in place is
      passed explicitly: the function returns its outcome together with the
      content of the caller's list when the call ends.
    - HTTP, the spreadsheet download and the clock are parameters. *)

From Stdlib Require Import List String Ascii ZArith Lia Bool Arith.
From Stdlib Require Import Permutation DecimalString.
Import ListNotations.

Open Scope string_scope.
Open Scope list_scope.

(** ** Python values, exceptions *)

Inductive exn : Type :=
| ValueError
| AttributeError
| IndexError
| ReadTimeout
| ConnectionError
| HTTPError.

Definition result (A : Type) : Type := (exn + A)%type.

Definition Ok {A : Type} (a : A) : result A := inr a.
Definition Raise {A : Type} (e : exn) : result A := inl e.

Definition bind {A B : Type} (m : result A) (k : A -> result B) : result B :=
  match m with
  | inl e => inl e
  | inr a => k a
  end.

Notation "x <- m ;; k" := (bind m (fun x => k))
  (at level 61, m at next level, right associativity).
Notation "m ;;; k" := (bind m (fun _ => k))
  (at level 61, right associativity).

(** A cell of the spreadsheet as [pandas] hands it over: text or a whole
    number.  (Cells read as floating-point numbers are not modelled.) *)
Inductive cell : Type :=
| VStr (s : string)
| VInt (z : Z).

(** [str(v)]. *)
Definition py_str (v : cell) : string :=
  match v with
  | VStr s => s
  | VInt z => NilZero.string_of_int (Z.to_int z)
  end.

(** *** [int(...)] *)

Definition is_digit (c : ascii) : bool :=
  (48 <=? nat_of_ascii c)%nat && (nat_of_ascii c <=? 57)%nat.

Definition digit_value (c : ascii) : Z := Z.of_nat (nat_of_ascii c) - 48.

(** The blanks [int] skips at both ends of ASCII text: tab, line feed,
    vertical tab, form feed, carriage return and space. *)
Definition is_space (c : ascii) : bool :=
  ((9 <=? nat_of_ascii c)%nat && (nat_of_ascii c <=? 13)%nat)
  || (nat_of_ascii c =? 32)%nat.

Fixpoint lstrip (s : string) : string :=
  match s with
  | String c r => if is_space c then lstrip r else s
  | EmptyString => EmptyString
  end.

Fixpoint rstrip (s : string) : string :=
  match s with
  | EmptyString => EmptyString
  | String c r =>
      match rstrip r with
      | EmptyString => if is_space c then EmptyString else String c EmptyString
      | r' => String c r'
      end
  end.

(** Digits of a base-10 literal, a single underscore allowed between two
    digits.  [after_digit] tells whether the previous character was a
    digit. *)
Fixpoint parse_digits (acc : Z) (after_digit : bool) (s : string) : option Z :=
  match s with
  | EmptyString => if after_digit then Some acc else None
  | String c r =>
      if is_digit c then parse_digits (10 * acc + digit_value c) true r
      else if (c =? "_")%char && after_digit then parse_digits acc false r
      else None
  end.

(** [int(s)] for text [s], base 10: blanks stripped, an optional sign, then
    the digits.  The grammar is the one of ASCII text; the decimal digits
    and blanks of other scripts that CPython also accepts, and its cap on
    the number of digits, are outside the model. *)
Definition py_int_str (s : string) : option Z :=
  match lstrip (rstrip s) with
  | EmptyString => None
  | String c r =>
      if (c =? "-")%char then option_map Z.opp (parse_digits 0 false r)
      else if (c =? "+")%char then parse_digits 0 false r
      else parse_digits 0 false (String c r)
  end.

(** [int(v)]. *)
Definition py_int (v : cell) : result Z :=
  match v with
  | VInt z => Ok z
  | VStr s =>
      match py_int_str s with
      | Some z => Ok z
      | None => Raise ValueError
      end
  end.

(** *** Lists *)

(** [x in l] for a list of [str]. *)
Definition py_in (x : string) (l : list string) : bool :=
  existsb (String.eqb x) l.

(** [l.remove(x)]: the first element equal to [x] goes; [ValueError] when
    there is none. *)
Fixpoint py_remove (x : string) (l : list string) : result (list string) :=
  match l with
  | [] => Raise ValueError
  | y :: r =>
      if String.eqb y x then Ok r
      else r' <- py_remove x r ;; Ok (y :: r')
  end.

(** [range(start, stop, step)], as the list of its elements. *)
Definition range_len (start stop step : Z) : nat :=
  if (0 <? step)%Z then
    if (start <? stop)%Z then Z.to_nat ((stop - start - 1) / step + 1) else 0%nat
  else
    if (stop <? start)%Z then Z.to_nat ((start - stop - 1) / (- step) + 1) else 0%nat.

Definition py_range (start stop step : Z) : result (list Z) :=
  if (step =? 0)%Z then Raise ValueError
  else Ok (map (fun k => (start + Z.of_nat k * step)%Z)
               (seq 0 (range_len start stop step))).

(** [l[i:j]]: negative bounds count from the end, both are clipped. *)
Definition clip_index (len i : Z) : Z :=
  if (i <? 0)%Z then Z.max (i + len) 0 else Z.min i len.

Definition py_slice {A : Type} (l : list A) (i j : Z) : list A :=
  let len := Z.of_nat (List.length l) in
  let a := clip_index len i in
  let b := clip_index len j in
  firstn (Z.to_nat (b - a)) (skipn (Z.to_nat a) l).

(** *** Text *)

(** [s.split(sep)] for a separator of one ASCII character. *)
Fixpoint py_split (sep : ascii) (s : string) : list string :=
  match s with
  | EmptyString => [EmptyString]
  | String c r =>
      if (c =? sep)%char then EmptyString :: py_split sep r
      else
        match py_split sep r with
        | p :: ps => String c p :: ps
        | [] => [String c EmptyString]
        end
  end.

(** [re.sub(cls, repl, s)] where the pattern [cls] is one character class:
    each character in the class is replaced by [repl]. *)
Fixpoint re_sub_class (cls : ascii -> bool) (repl : string) (s : string) : string :=
  match s with
  | EmptyString => EmptyString
  | String c r =>
      if cls c then (repl ++ re_sub_class cls repl r)%string
      else String c (re_sub_class cls repl r)
  end.

(** The class [[^0-9]]. *)
Definition not_0_9 (c : ascii) : bool := negb (is_digit c).

(** ** seller.py: [price_conversion] and [divide] (shared with market.py) *)

(** [re.sub("[^0-9]", "", price.split(".")[0])].  [split] never returns an
    empty list (see [py_split_not_nil]), so the index 0 is always there. *)
Definition price_conversion (price : string) : string :=
  re_sub_class not_0_9 "" (hd "" (py_split "." price)).

(** [list(divide(lst, n))]: the batches the generator yields, in order, as
    every call site consumes them. *)
Definition divide {A : Type} (lst : list A) (n : Z) : result (list (list A)) :=
  idx <- py_range 0 (Z.of_nat (List.length lst)) n ;;
  Ok (map (fun i => py_slice lst i (i + n)) idx).


(** One request per batch, in order; the first failure ends the loop.
    [send k b] is the outcome of the [k]-th request, carrying batch [b]. *)
Fixpoint for_each_batch {A R : Type} (send : nat -> A -> result R) (k : nat)
    (batches : list A) : result unit :=
  match batches with
  | [] => Ok tt
  | b :: rest => send k b ;;; for_each_batch send (S k) rest
  end.

(** [list(filter(f, l))] for a test [f] that may raise. *)
Fixpoint py_filter {A : Type} (f : A -> result bool) (l : list A) : result (list A) :=
  match l with
  | [] => Ok []
  | x :: r =>
      b <- f x ;;
      r' <- py_filter f r ;;
      Ok (if b : bool then x :: r' else r')
  end.

(** A record of the feed, as [download_stock] returns it: a dict with (among
    others) the three columns the reconciliation reads.  The columns are
    present in every record, so [watch.get(...)] never yields [None]. *)
Record watch : Type := {
  Код : cell;
  Количество : cell;
  Цена : cell
}.

(** ** seller.py *)

Module Seller.

Module Stock.
Record t : Type := { offer_id : string; stock : Z }.
End Stock.

Module Price.
Record t : Type := {
  auto_action_enabled : string;
  currency_code : string;
  offer_id : string;
  old_price : string;
  price : string
}.
End Price.

(** The first loop of [create_stocks] (lines 216-226), from the record
    [watch_remnants] starts with, on the current [stocks] and the current
    content of the caller's [offer_ids]. *)
Fixpoint stocks_loop (watch_remnants : list watch) (stocks : list Stock.t)
    (offer_ids : list string) : result (list Stock.t) * list string :=
  match watch_remnants with
  | [] => (Ok stocks, offer_ids)
  | watch :: rest =>
      if py_in (py_str (Код watch)) offer_ids then
        let count := py_str (Количество watch) in
        match (if count =? ">10" then Ok 100%Z
               else if count =? "1" then Ok 0%Z
               else py_int (Количество watch)) with
        | inl e => (inl e, offer_ids)
        | inr stock =>
            let stocks :=
              stocks ++ [{| Stock.offer_id := py_str (Код watch);
                            Stock.stock := stock |}] in
            match py_remove (py_str (Код watch)) offer_ids with
            | inl e => (inl e, offer_ids)
            | inr offer_ids => stocks_loop rest stocks offer_ids
            end
        end
      else stocks_loop rest stocks offer_ids
  end.

(** [create_stocks(watch_remnants, offer_ids)]: the value returned (or the
    exception raised) and the content of the caller's [offer_ids] list when
    the call ends. *)
Definition create_stocks (watch_remnants : list watch) (offer_ids : list string)
  : result (list Stock.t) * list string :=
  match stocks_loop watch_remnants [] offer_ids with
  | (inl e, offer_ids) => (inl e, offer_ids)
  | (inr stocks, offer_ids) =>
      (Ok (stocks ++ map (fun offer_id =>
                            {| Stock.offer_id := offer_id; Stock.stock := 0 |})
                         offer_ids),
       offer_ids)
  end.

(** [price_conversion(watch.get("Цена"))]: [split] is a method of [str]. *)
Definition price_of (v : cell) : result string :=
  match v with
  | VStr s => Ok (price_conversion s)
  | VInt _ => Raise AttributeError
  end.

Fixpoint prices_loop (watch_remnants : list watch) (prices : list Price.t)
    (offer_ids : list string) : result (list Price.t) :=
  match watch_remnants with
  | [] => Ok prices
  | watch :: rest =>
      if py_in (py_str (Код watch)) offer_ids then
        p <- price_of (Цена watch) ;;
        let price :=
          {| Price.auto_action_enabled := "UNKNOWN";
             Price.currency_code := "RUB";
             Price.offer_id := py_str (Код watch);
             Price.old_price := "0";
             Price.price := p |} in
        prices_loop rest (prices ++ [price]) offer_ids
      else prices_loop rest prices offer_ids
  end.

(** [create_prices(watch_remnants, offer_ids)]; it only reads [offer_ids]. *)
Definition create_prices (watch_remnants : list watch) (offer_ids : list string)
  : result (list Price.t) :=
  prices_loop watch_remnants [] offer_ids.

(** The catalogue of the shop, page by page (lines 57-88). *)
Module Catalog.

(** An item of a page; only its [offer_id] is read. *)
Record product : Type := { offer_id : string }.

(** The dict [get_product_list] returns, with the three keys that
    [get_offer_ids] reads. *)
Record page : Type := { items : list product; total : Z; last_id : string }.

Section Pager.

(** [get_product_list k last_id] is the outcome of the [k]-th request, made
    with the cursor [last_id]. *)
Variable get_product_list : nat -> string -> result page.

(** The [while True] loop, from its [k]-th turn on; [None] when [fuel]
    turns do not reach the [break]. *)
Fixpoint pages_loop (fuel k : nat) (last_id : string) (product_list : list product)
  : option (result (list product)) :=
  match fuel with
  | O => None
  | S fuel =>
      match get_product_list k last_id with
      | inl e => Some (inl e)
      | inr some_prod =>
          let product_list := product_list ++ items some_prod in
          let total := Catalog.total some_prod in
          let last_id := Catalog.last_id some_prod in
          if (total =? Z.of_nat (List.length product_list))%Z
          then Some (Ok product_list)
          else pages_loop fuel (S k) last_id product_list
      end
  end.

Definition get_offer_ids (fuel : nat) : option (result (list string)) :=
  match pages_loop fuel 0 "" [] with
  | None => None
  | Some (inl e) => Some (inl e)
  | Some (inr product_list) => Some (Ok (map offer_id product_list))
  end.

End Pager.

End Catalog.

Section Remote.

(** The marketplace and the feed site.  [get_offer_ids] is the outcome of
    the one call each function below makes; [update_stocks k b] and
    [update_price k b] are the outcomes of the [k]-th request of a loop. *)
Variable response : Type.
Variable get_offer_ids : result (list string).
Variable download_stock : result (list watch).
Variable update_stocks : nat -> list Stock.t -> result response.
Variable update_price : nat -> list Price.t -> result response.

(** The body of the coroutine [upload_stocks]. *)
Definition upload_stocks (watch_remnants : list watch)
  : result (list Stock.t * list Stock.t) :=
  offer_ids <- get_offer_ids ;;
  stocks <- fst (create_stocks watch_remnants offer_ids) ;;
  batches <- divide stocks 100 ;;
  for_each_batch update_stocks 0 batches ;;;
  let not_empty :=
    filter (fun stock => negb (Stock.stock stock =? 0)%Z) stocks in
  Ok (not_empty, stocks).

(** The body of the coroutine [upload_prices]. *)
Definition upload_prices (watch_remnants : list watch) : result (list Price.t) :=
  offer_ids <- get_offer_ids ;;
  prices <- create_prices watch_remnants offer_ids ;;
  batches <- divide prices 1000 ;;
  for_each_batch update_price 0 batches ;;;
  Ok prices.

(** The [try] block of [main]: the values of its locals [stocks] and
    [prices] when it completes, or the exception its handlers report.  The
    one list [offer_ids] is handed first to [create_stocks], then to
    [create_prices]. *)
Definition main : result (list Stock.t * list Price.t) :=
  offer_ids <- get_offer_ids ;;
  watch_remnants <- download_stock ;;
  let '(r, offer_ids) := create_stocks watch_remnants offer_ids in
  stocks <- r ;;
  batches <- divide stocks 100 ;;
  for_each_batch update_stocks 0 batches ;;;
  prices <- create_prices watch_remnants offer_ids ;;
  batches <- divide prices 900 ;;
  for_each_batch update_price 0 batches ;;;
  Ok (stocks, prices).

End Remote.

End Seller.

(** ** market.py *)

Module Market.

Module Item.
Record t : Type := { count : Z; type : string; updatedAt : string }.
End Item.

Module Stock.
Record t : Type := { sku : string; warehouseId : string; items : list Item.t }.
End Stock.

Module PriceValue.
Record t : Type := { value : Z; currencyId : string }.
End PriceValue.

Module Price.
Record t : Type := { id : string; price : PriceValue.t }.
End Price.

(** The first loop of [create_stocks] (lines 188-210). *)
Fixpoint stocks_loop (warehouse_id date : string) (watch_remnants : list watch)
    (stocks : list Stock.t) (offer_ids : list string)
  : result (list Stock.t) * list string :=
  match watch_remnants with
  | [] => (Ok stocks, offer_ids)
  | watch :: rest =>
      if py_in (py_str (Код watch)) offer_ids then
        let count := py_str (Количество watch) in
        match (if count =? ">10" then Ok 100%Z
               else if count =? "1" then Ok 0%Z
               else py_int (Количество watch)) with
        | inl e => (inl e, offer_ids)
        | inr stock =>
            let stocks :=
              stocks ++ [{| Stock.sku := py_str (Код watch);
                            Stock.warehouseId := warehouse_id;
                            Stock.items :=
                              [{| Item.count := stock;
                                  Item.type := "FIT";
                                  Item.updatedAt := date |}] |}] in
            match py_remove (py_str (Код watch)) offer_ids with
            | inl e => (inl e, offer_ids)
            | inr offer_ids => stocks_loop warehouse_id date rest stocks offer_ids
            end
        end
      else stocks_loop warehouse_id date rest stocks offer_ids
  end.

(** [create_stocks(watch_remnants, offer_ids, warehouse_id)].  [utcnow] is
    the text [datetime.datetime.utcnow().replace(microsecond=0).isoformat()]
    evaluates to during the call. *)
Definition create_stocks (utcnow : string) (watch_remnants : list watch)
    (offer_ids : list string) (warehouse_id : string)
  : result (list Stock.t) * list string :=
  let date := (utcnow ++ "Z")%string in
  match stocks_loop warehouse_id date watch_remnants [] offer_ids with
  | (inl e, offer_ids) => (inl e, offer_ids)
  | (inr stocks, offer_ids) =>
      (Ok (stocks ++ map (fun offer_id =>
                            {| Stock.sku := offer_id;
                               Stock.warehouseId := warehouse_id;
                               Stock.items :=
                                 [{| Item.count := 0;
                                     Item.type := "FIT";
                                     Item.updatedAt := date |}] |})
                         offer_ids),
       offer_ids)
  end.

(** [int(price_conversion(watch.get("Цена")))]. *)
Definition price_of (v : cell) : result Z :=
  match v with
  | VStr s => py_int (VStr (price_conversion s))
  | VInt _ => Raise AttributeError
  end.

Fixpoint prices_loop (watch_remnants : list watch) (prices : list Price.t)
    (offer_ids : list string) : result (list Price.t) :=
  match watch_remnants with
  | [] => Ok prices
  | watch :: rest =>
      if py_in (py_str (Код watch)) offer_ids then
        v <- price_of (Цена watch) ;;
        let price :=
          {| Price.id := py_str (Код watch);
             Price.price := {| PriceValue.value := v;
                               PriceValue.currencyId := "RUR" |} |} in
        prices_loop rest (prices ++ [price]) offer_ids
      else prices_loop rest prices offer_ids
  end.

Definition create_prices (watch_remnants : list watch) (offer_ids : list string)
  : result (list Price.t) :=
  prices_loop watch_remnants [] offer_ids.

(** The catalogue of a campaign, page by page (lines 136-166). *)
Module Catalog.

Record offer_t : Type := { shopSku : string }.

(** An entry of a page; only its [offer] is read. *)
Record entry : Type := { offer : offer_t }.

(** [nextPageToken] is [None] when the key is absent. *)
Record paging_t : Type := { nextPageToken : option string }.

Record page_t : Type := { offerMappingEntries : list entry; paging : paging_t }.

Section Pager.

(** [get_product_list k page] is the outcome of the [k]-th request, made
    with the page token [page]. *)
Variable get_product_list : nat -> string -> result page_t.

(** The [while True] loop, from its [k]-th turn on; [None] when [fuel]
    turns do not reach the [break].  [not page] holds of an absent token
    and of the empty text. *)
Fixpoint pages_loop (fuel k : nat) (page : string) (product_list : list entry)
  : option (result (list entry)) :=
  match fuel with
  | O => None
  | S fuel =>
      match get_product_list k page with
      | inl e => Some (inl e)
      | inr some_prod =>
          let product_list := product_list ++ offerMappingEntries some_prod in
          match nextPageToken (paging some_prod) with
          | None => Some (Ok product_list)
          | Some page =>
              if page =? "" then Some (Ok product_list)
              else pages_loop fuel (S k) page product_list
          end
      end
  end.

Definition get_offer_ids (fuel : nat) : option (result (list string)) :=
  match pages_loop fuel 0 "" [] with
  | None => None
  | Some (inl e) => Some (inl e)
  | Some (inr product_list) =>
      Some (Ok (map (fun product => shopSku (offer product)) product_list))
  end.

End Pager.

End Catalog.

Section Remote.

Variable response : Type.
Variable utcnow : string.
Variable get_offer_ids : result (list string).
Variable update_stocks : nat -> list Stock.t -> result response.
Variable update_price : nat -> list Price.t -> result response.

(** [stock.get("items")[0].get("count") != 0]. *)
Definition count_not_zero (stock : Stock.t) : result bool :=
  match Stock.items stock with
  | item :: _ => Ok (negb (Item.count item =? 0)%Z)
  | [] => Raise IndexError
  end.

(** The body of the coroutine [upload_stocks]. *)
Definition upload_stocks (watch_remnants : list watch) (warehouse_id : string)
  : result (list Stock.t * list Stock.t) :=
  offer_ids <- get_offer_ids ;;
  stocks <- fst (create_stocks utcnow watch_remnants offer_ids warehouse_id) ;;
  batches <- divide stocks 2000 ;;
  for_each_batch update_stocks 0 batches ;;;
  not_empty <- py_filter count_not_zero stocks ;;
  Ok (not_empty, stocks).

(** The body of the coroutine [upload_prices]. *)
Definition upload_prices (watch_remnants : list watch) : result (list Price.t) :=
  offer_ids <- get_offer_ids ;;
  prices <- create_prices watch_remnants offer_ids ;;
  batches <- divide prices 500 ;;
  for_each_batch update_price 0 batches ;;;
  Ok prices.

End Remote.

End Market.

(** ** The two [create_stocks] as one reconciliation

    Both channels run the same loops and differ in the dict they build for
    an SKU and its count.  [reconcile entry] is that common text, with the
    dict literal as the parameter [entry]; [Seller.create_stocks] and
    [Market.create_stocks] are shown below to be instances of it. *)

Section Reconcile.

Context {E : Type}.
Variable entry : string -> Z -> E.

(** Lines 218-224 of seller.py, 190-196 of market.py. *)
Definition stock_count (quantity : cell) : result Z :=
  let count := py_str quantity in
  if count =? ">10" then Ok 100%Z
  else if count =? "1" then Ok 0%Z
  else py_int quantity.

Fixpoint reconcile_loop (watch_remnants : list watch) (stocks : list E)
    (offer_ids : list string) : result (list E) * list string :=
  match watch_remnants with
  | [] => (Ok stocks, offer_ids)
  | watch :: rest =>
      if py_in (py_str (Код watch)) offer_ids then
        match stock_count (Количество watch) with
        | inl e => (inl e, offer_ids)
        | inr stock =>
            match py_remove (py_str (Код watch)) offer_ids with
            | inl e => (inl e, offer_ids)
            | inr offer_ids =>
                reconcile_loop rest (stocks ++ [entry (py_str (Код watch)) stock])
                               offer_ids
            end
        end
      else reconcile_loop rest stocks offer_ids
  end.

Definition reconcile (watch_remnants : list watch) (offer_ids : list string)
  : result (list E) * list string :=
  match reconcile_loop watch_remnants [] offer_ids with
  | (inl e, offer_ids) => (inl e, offer_ids)
  | (inr stocks, offer_ids) =>
      (Ok (stocks ++ map (fun offer_id => entry offer_id 0%Z) offer_ids), offer_ids)
  end.

End Reconcile.

(** ** The two [get_offer_ids] as one pager

    Both loops ask for a page, add its items to those they hold, then
    either stop or go on from the cursor of the page.  [paginate] is that
    common text; the test for stopping and the cursor are its parameters. *)

Section Paginate.

Context {P I : Type}.
Variable fetch : nat -> string -> result P.
Variable items_of : P -> list I.
Variable next : P -> string.
Variable done : P -> list I -> bool.

Fixpoint paginate (fuel k : nat) (cursor : string) (held : list I)
  : option (result (list I)) :=
  match fuel with
  | O => None
  | S fuel =>
      match fetch k cursor with
      | inl e => Some (inl e)
      | inr p =>
          let held := held ++ items_of p in
          if done p held then Some (Ok held)
          else paginate fuel (S k) (next p) held
      end
  end.

(** The pages a marketplace hands out from the [k]-th request on, each
    request made with the cursor of the page before it ([cursor] for the
    first). *)
Inductive served : nat -> string -> list P -> Prop :=
| served_nil : forall k cursor, served k cursor []
| served_cons : forall k cursor p ps,
    fetch k cursor = Ok p -> served (S k) (next p) ps -> served k cursor (p :: ps).

(** All the items of a list of pages, in order. *)
Definition all_items (ps : list P) : list I := List.concat (map items_of ps).

(** No page of [ps] meets the test for stopping, [held] being the items
    held before the first of them. *)
Fixpoint keeps_going (held : list I) (ps : list P) : bool :=
  match ps with
  | [] => true
  | p :: rest =>
      negb (done p (held ++ items_of p)) && keeps_going (held ++ items_of p) rest
  end.

(** The cursor in hand after the pages [ps]. *)
Definition cursor_after (cursor : string) (ps : list P) : string :=
  fold_left (fun _ p => next p) ps cursor.

End Paginate.

(** When the seller loop stops: the total of the page is the number of
    items held. *)
Definition seller_done (p : Seller.Catalog.page) (held : list Seller.Catalog.product)
  : bool :=
  (Seller.Catalog.total p =? Z.of_nat (List.length held))%Z.

(** The page token of a market page, the empty text when it has none. *)
Definition market_token (p : Market.Catalog.page_t) : string :=
  match Market.Catalog.nextPageToken (Market.Catalog.paging p) with
  | Some t => t
  | None => ""
  end.

(** When the market loop stops: the page has no token to go on from. *)
Definition market_done (p : Market.Catalog.page_t) (held : list Market.Catalog.entry)
  : bool :=
  market_token p =? "".

(** ** Vocabulary of the specification *)

Module Spec.

(** The SKU a feed record speaks about: its code, as text. *)
Definition code_of (w : watch) : string := py_str (Код w).

Definition codes (feed : list watch) : list string := map code_of feed.

Fixpoint all_chars (p : ascii -> bool) (s : string) : bool :=
  match s with
  | EmptyString => true
  | String c r => p c && all_chars p r
  end.

(** A decimal-integer string: one digit or more, nothing else. *)
Definition decimal_string (s : string) : bool :=
  negb (s =? "") && all_chars is_digit s.

(** The threshold rule on a quantity text: the token for more than ten
    gives 100, the token for the one unit held back gives 0, any other text
    is read as a literal integer. *)
Definition threshold_rule (quantity : string) : option Z :=
  if quantity =? ">10" then Some 100%Z
  else if quantity =? "1" then Some 0%Z
  else py_int_str quantity.

(** The quantities the feed is meant to carry. *)
Definition quantity_ok (q : cell) : Prop :=
  q = VStr ">10" \/ q = VStr "1" \/ exists s, q = VStr s /\ decimal_string s = true.

(** A text of ASCII characters only: every byte of it is below 128. *)
Definition ascii_text (s : string) : bool :=
  all_chars (fun c => (nat_of_ascii c <? 128)%nat) s.


(** A price cell that is text. *)
Definition price_text (p : cell) : Prop := exists s, p = VStr s.

(** A price text with a digit before its first decimal point. *)
Definition price_ok (p : cell) : Prop :=
  exists s, p = VStr s /\ price_conversion s <> "".

(** The working set with one SKU accounted for. *)
Fixpoint remove_first (x : string) (l : list string) : list string :=
  match l with
  | [] => []
  | y :: r => if String.eqb y x then r else y :: remove_first x r
  end.

(** The matched records of a feed: those whose code is in the working set
    when their turn comes, the working set losing that SKU at each match. *)
Fixpoint matched (feed : list watch) (working : list string) : list watch :=
  match feed with
  | [] => []
  | w :: rest =>
      if py_in (code_of w) working
      then w :: matched rest (remove_first (code_of w) working)
      else matched rest working
  end.

(** The working set after the pass over the feed. *)
Fixpoint remaining (feed : list watch) (working : list string) : list string :=
  match feed with
  | [] => working
  | w :: rest =>
      if py_in (code_of w) working
      then remaining rest (remove_first (code_of w) working)
      else remaining rest working
  end.

(** The substring before the first decimal point. *)
Fixpoint before_first_dot (s : string) : string :=
  match s with
  | EmptyString => EmptyString
  | String c r => if (c =? ".")%char then EmptyString else String c (before_first_dot r)
  end.

(** Every character that is not a decimal digit stripped. *)
Fixpoint keep_digits (s : string) : string :=
  match s with
  | EmptyString => EmptyString
  | String c r => if is_digit c then String c (keep_digits r) else keep_digits r
  end.

(** The count of a matched record once [stock_count] has accepted its
    quantity (0 stands in where it has not). *)
Definition count_value (q : cell) : Z :=
  match stock_count q with
  | inr n => n
  | inl _ => 0%Z
  end.

(** The stock entries of a reconciliation that meets no malformed
    quantity: one per matched record, in feed order, then one with count 0
    per SKU left in the working set. *)
Definition expected_stocks {E : Type} (entry : string -> Z -> E)
    (feed : list watch) (offer_ids : list string) : list E :=
  map (fun w => entry (code_of w) (count_value (Количество w))) (matched feed offer_ids)
  ++ map (fun offer_id => entry offer_id 0%Z) (remaining feed offer_ids).

(** The count a stock entry of each channel carries. *)
Definition seller_nonzero (e : Seller.Stock.t) : bool :=
  negb (Seller.Stock.stock e =? 0)%Z.

Definition market_nonzero (e : Market.Stock.t) : bool :=
  match Market.Stock.items e with
  | item :: _ => negb (Market.Item.count item =? 0)%Z
  | [] => false
  end.

(** The codes of a list with only the first occurrence of each kept;
    [seen] holds the codes met so far. *)
Fixpoint keep_first (seen : list string) (l : list string) : list string :=
  match l with
  | [] => []
  | c :: r => if py_in c seen then keep_first seen r else c :: keep_first (c :: seen) r
  end.

(** The text of a cell, empty for a number. *)
Definition cell_text (c : cell) : string :=
  match c with
  | VStr s => s
  | VInt _ => ""
  end.

(** Whether a cell is text. *)
Definition is_text (c : cell) : bool :=
  match c with
  | VStr _ => true
  | VInt _ => false
  end.

(** The whole number a price text shows before its first decimal point
    (0 stands in where it shows none). *)
Definition price_number (c : cell) : Z :=
  match py_int_str (price_conversion (cell_text c)) with
  | Some z => z
  | None => 0%Z
  end.

(** The records of a feed whose code is in a list of SKUs. *)
Definition with_code_in (offer_ids : list string) (feed : list watch) : list watch :=
  filter (fun w => py_in (code_of w) offer_ids) feed.

(** The [k]-th run of [m] consecutive elements of a list. *)
Definition batch_at {A : Type} (l : list A) (m k : nat) : list A :=
  firstn m (skipn (k * m) l).

(** A list of SKUs that is the remote SKU list up to order: as many SKUs,
    none twice, the same members. *)
Definition covers (skus offer_ids : list string) : Prop :=
  List.length skus = List.length offer_ids
  /\ NoDup skus
  /\ forall c, In c skus <-> In c offer_ids.

End Spec.

(** The dict each channel builds for an SKU and its count. *)
Definition seller_entry (offer_id : string) (stock : Z) : Seller.Stock.t :=
  {| Seller.Stock.offer_id := offer_id; Seller.Stock.stock := stock |}.

Definition market_entry (warehouse_id date : string) (sku : string) (count : Z)
  : Market.Stock.t :=
  {| Market.Stock.sku := sku;
     Market.Stock.warehouseId := warehouse_id;
     Market.Stock.items :=
       [{| Market.Item.count := count;
           Market.Item.type := "FIT";
           Market.Item.updatedAt := date |}] |}.

Definition seller_price (offer_id price : string) : Seller.Price.t :=
  {| Seller.Price.auto_action_enabled := "UNKNOWN";
     Seller.Price.currency_code := "RUB";
     Seller.Price.offer_id := offer_id;
     Seller.Price.old_price := "0";
     Seller.Price.price := price |}.

Definition market_price (id : string) (value : Z) : Market.Price.t :=
  {| Market.Price.id := id;
     Market.Price.price := {| Market.PriceValue.value := value;
                              Market.PriceValue.currencyId := "RUR" |} |}.

(** ** Sample data *)

Module Sample.

Definition record (code quantity price : string) : watch :=
  {| Код := VStr code; Количество := VStr quantity; Цена := VStr price |}.

(** The end-to-end scenario of the specification. *)
Definition feed : list watch :=
  [record "A1" ">10" "100.00 x"; record "A2" "1" "50.00 x"].

Definition offer_ids : list string := ["A1"; "A3"].


(** One record per row of the quantity table. *)
Definition feed_quantities : list watch :=
  [record "a" ">10" "1.00"; record "b" "1" "1.00"; record "c" "7" "1.00";
   record "d" "0" "1.00"; record "e" "15" "1.00"].

(** A shop of three products served in two pages, the second asked for
    with the cursor [c1] the first one gives. *)
Definition seller_page0 : Seller.Catalog.page :=
  {| Seller.Catalog.items := [{| Seller.Catalog.offer_id := "A1" |};
                              {| Seller.Catalog.offer_id := "A2" |}];
     Seller.Catalog.total := 3;
     Seller.Catalog.last_id := "c1" |}.

Definition seller_page1 : Seller.Catalog.page :=
  {| Seller.Catalog.items := [{| Seller.Catalog.offer_id := "A3" |}];
     Seller.Catalog.total := 3;
     Seller.Catalog.last_id := "c2" |}.

Definition seller_shop (k : nat) (last_id : string) : result Seller.Catalog.page :=
  match k with
  | 0%nat => if last_id =? "" then Ok seller_page0 else Raise HTTPError
  | 1%nat => if last_id =? "c1" then Ok seller_page1 else Raise HTTPError
  | _ => Raise ReadTimeout
  end.

(** A shop whose second page cannot be had. *)
Definition seller_shop_down (k : nat) (last_id : string) : result Seller.Catalog.page :=
  match k with
  | 0%nat => if last_id =? "" then Ok seller_page0 else Raise HTTPError
  | _ => Raise ConnectionError
  end.

(** A shop that reports a total of 1 and hands out two products at each
    request. *)
Definition seller_shop_over (k : nat) (last_id : string) : result Seller.Catalog.page :=
  Ok {| Seller.Catalog.items := [{| Seller.Catalog.offer_id := "A1" |};
                                 {| Seller.Catalog.offer_id := "A2" |}];
        Seller.Catalog.total := 1;
        Seller.Catalog.last_id := "c1" |}.

(** The same shop as a campaign of the market, the last page with no
    token. *)
Definition market_page (skus : list string) (token : option string)
  : Market.Catalog.page_t :=
  {| Market.Catalog.offerMappingEntries :=
       map (fun s => {| Market.Catalog.offer := {| Market.Catalog.shopSku := s |} |})
           skus;
     Market.Catalog.paging := {| Market.Catalog.nextPageToken := token |} |}.

Definition market_shop (k : nat) (page : string) : result Market.Catalog.page_t :=
  match k with
  | 0%nat => if page =? "" then Ok (market_page ["A1"; "A2"] (Some "t1"))
             else Raise HTTPError
  | 1%nat => if page =? "t1" then Ok (market_page ["A3"] None)
             else Raise HTTPError
  | _ => Raise ReadTimeout
  end.

Definition market_shop_down (k : nat) (page : string) : result Market.Catalog.page_t :=
  match k with
  | 0%nat => if page =? "" then Ok (market_page ["A1"; "A2"] (Some "t1"))
             else Raise HTTPError
  | _ => Raise ConnectionError
  end.

(** A campaign that gives the same token with every page. *)
Definition market_shop_loop (k : nat) (page : string) : result Market.Catalog.page_t :=
  Ok (market_page ["A1"] (Some "t1")).

(** A marketplace that answers the requests of 1 to [limit] entries and
    rejects the others. *)
Definition picky {A : Type} (limit : Z) (k : nat) (batch : list A) : result unit :=
  match batch with
  | [] => Raise HTTPError
  | _ => if (Z.of_nat (List.length batch) <=? limit)%Z then Ok tt else Raise HTTPError
  end.

(** A marketplace that answers its first request and none after. *)
Definition once {A : Type} (k : nat) (batch : list A) : result unit :=
  match k with
  | O => Ok tt
  | S _ => Raise ReadTimeout
  end.

(** A record whose price has no digit. *)
Definition feed_no_digit : list watch := [record "A1" "3" "руб."].

(** A feed with the code A1 twice, both quantities well formed, and a
    remote SKU list with A1 twice. *)
Definition feed_repeat : list watch :=
  [record "A1" "5" "100.00 x"; record "B7" "2" "3.00 x"; record "A1" "7" "70.00 x"].

Definition offer_ids_repeat : list string := ["A1"; "A3"; "A1"].

End Sample.

(** * Properties *)

(** ** The channels are instances of [reconcile] *)

Lemma seller_stocks_loop_reconcile watch_remnants stocks offer_ids :
  Seller.stocks_loop watch_remnants stocks offer_ids
  = reconcile_loop seller_entry watch_remnants stocks offer_ids.
Proof.
  revert stocks offer_ids.
  induction watch_remnants as [|w rest IH]; intros stocks offer_ids; simpl.
  - reflexivity.
  - unfold stock_count.
    destruct (py_in _ offer_ids); [|apply IH].
    destruct (if py_str (Количество w) =? ">10" then _ else _); [reflexivity|].
    destruct (py_remove _ offer_ids); [reflexivity|apply IH].
Qed.

Lemma seller_create_stocks_reconcile watch_remnants offer_ids :
  Seller.create_stocks watch_remnants offer_ids
  = reconcile seller_entry watch_remnants offer_ids.
Proof.
  unfold Seller.create_stocks, reconcile.
  now rewrite seller_stocks_loop_reconcile.
Qed.

Lemma market_stocks_loop_reconcile warehouse_id date watch_remnants stocks offer_ids :
  Market.stocks_loop warehouse_id date watch_remnants stocks offer_ids
  = reconcile_loop (market_entry warehouse_id date) watch_remnants stocks offer_ids.
Proof.
  revert stocks offer_ids.
  induction watch_remnants as [|w rest IH]; intros stocks offer_ids; simpl.
  - reflexivity.
  - unfold stock_count.
    destruct (py_in _ offer_ids); [|apply IH].
    destruct (if py_str (Количество w) =? ">10" then _ else _); [reflexivity|].
    destruct (py_remove _ offer_ids); [reflexivity|apply IH].
Qed.

Lemma market_create_stocks_reconcile utcnow watch_remnants offer_ids warehouse_id :
  Market.create_stocks utcnow watch_remnants offer_ids warehouse_id
  = reconcile (market_entry warehouse_id (utcnow ++ "Z")%string)
              watch_remnants offer_ids.
Proof.
  unfold Market.create_stocks, reconcile.
  now rewrite market_stocks_loop_reconcile.
Qed.

(** ** Lists of SKUs *)

Lemma py_in_In x l : py_in x l = true <-> In x l.
Proof.
  unfold py_in. rewrite existsb_exists. split.
  - intros [y [Hy He]]. apply String.eqb_eq in He. now subst.
  - intros H. exists x. split; [assumption|apply String.eqb_refl].
Qed.

Lemma py_in_false x l : py_in x l = false <-> ~ In x l.
Proof.
  rewrite <- py_in_In. destruct (py_in x l); split; congruence.
Qed.

Lemma py_remove_in x l :
  py_in x l = true -> py_remove x l = Ok (Spec.remove_first x l).
Proof.
  induction l as [|y r IH]; simpl; [discriminate|].
  rewrite (String.eqb_sym x y).
  destruct (String.eqb y x); simpl; [reflexivity|].
  intros H. now rewrite (IH H).
Qed.

Lemma remove_first_perm x l :
  In x l -> Permutation l (x :: Spec.remove_first x l).
Proof.
  induction l as [|y r IH]; simpl; [tauto|].
  destruct (String.eqb_spec y x) as [->|Hne]; [reflexivity|].
  intros [H|H]; [congruence|].
  rewrite perm_swap. constructor. now apply IH.
Qed.

Lemma remove_first_In x y l : In y (Spec.remove_first x l) -> In y l.
Proof.
  induction l as [|z r IH]; simpl; [tauto|].
  destruct (String.eqb z x); simpl; intuition.
Qed.

Lemma remove_first_In_other x y l :
  y <> x -> In y l -> In y (Spec.remove_first x l).
Proof.
  intros Hne. induction l as [|z r IH]; simpl; [tauto|].
  destruct (String.eqb_spec z x) as [->|Hzx]; simpl; intuition congruence.
Qed.

Lemma remove_first_NoDup x l : NoDup l -> NoDup (Spec.remove_first x l).
Proof.
  induction 1 as [|y r Hy Hr IH]; simpl; [constructor|].
  destruct (String.eqb y x); [assumption|].
  constructor; [|assumption].
  intros H. apply Hy. eapply remove_first_In, H.
Qed.

Lemma remove_first_NoDup_notin x l : NoDup l -> ~ In x (Spec.remove_first x l).
Proof.
  induction 1 as [|y r Hy Hr IH]; simpl; [tauto|].
  destruct (String.eqb_spec y x) as [->|Hne]; [assumption|].
  simpl. intuition.
Qed.

Lemma remove_first_filter x l :
  NoDup l -> Spec.remove_first x l = filter (fun s => negb (String.eqb s x)) l.
Proof.
  induction 1 as [|y r Hy Hr IH]; simpl; [reflexivity|].
  destruct (String.eqb_spec y x) as [->|Hne]; simpl.
  - symmetry. apply forallb_filter_id. apply forallb_forall.
    intros z Hz. destruct (String.eqb_spec z x) as [->|]; [contradiction|reflexivity].
  - now rewrite IH.
Qed.

(** ** The matched records and the working set *)

Lemma matched_remaining_perm feed ids :
  Permutation (Spec.codes (Spec.matched feed ids) ++ Spec.remaining feed ids) ids.
Proof.
  revert ids. induction feed as [|w rest IH]; intros ids; simpl.
  - reflexivity.
  - destruct (py_in (Spec.code_of w) ids) eqn:Hin; [|apply IH].
    simpl. symmetry.
    etransitivity; [apply (remove_first_perm (Spec.code_of w)); now apply py_in_In|].
    constructor. symmetry. apply IH.
Qed.

Lemma remaining_In c feed ids :
  In c ids -> ~ In c (Spec.codes feed) -> In c (Spec.remaining feed ids).
Proof.
  revert ids. induction feed as [|w rest IH]; intros ids Hc Hn; simpl in *.
  - assumption.
  - destruct (py_in (Spec.code_of w) ids); apply IH; try tauto.
    apply remove_first_In_other; [|assumption]. intros ->. tauto.
Qed.

Lemma matched_app pre post ids :
  Spec.matched (pre ++ post) ids
  = Spec.matched pre ids ++ Spec.matched post (Spec.remaining pre ids).
Proof.
  revert ids. induction pre as [|w rest IH]; intros ids; simpl.
  - reflexivity.
  - destruct (py_in (Spec.code_of w) ids); simpl; now rewrite IH.
Qed.

Lemma remaining_app pre post ids :
  Spec.remaining (pre ++ post) ids = Spec.remaining post (Spec.remaining pre ids).
Proof.
  revert ids. induction pre as [|w rest IH]; intros ids; simpl.
  - reflexivity.
  - destruct (py_in (Spec.code_of w) ids); simpl; now rewrite IH.
Qed.

(** The first record of the feed that carries a code of the working set is
    matched. *)
Lemma first_occurrence_matched pre w post ids :
  In (Spec.code_of w) ids -> ~ In (Spec.code_of w) (Spec.codes pre) ->
  Spec.matched (pre ++ w :: post) ids
  = Spec.matched pre ids
    ++ w :: Spec.matched post
              (Spec.remove_first (Spec.code_of w) (Spec.remaining pre ids)).
Proof.
  intros Hc Hn. rewrite matched_app. simpl.
  now rewrite (proj2 (py_in_In _ _) (remaining_In _ _ _ Hc Hn)).
Qed.

Lemma filter_filter_negb_in c cs (l : list string) :
  filter (fun s => negb (py_in s cs)) (filter (fun s => negb (String.eqb s c)) l)
  = filter (fun s => negb (py_in s (c :: cs))) l.
Proof.
  induction l as [|y r IH]; simpl; [reflexivity|].
  unfold py_in at 2. simpl. fold (py_in y cs).
  destruct (String.eqb y c); simpl; [assumption|].
  destruct (py_in y cs); simpl; now rewrite IH.
Qed.

Lemma filter_negb_in_skip c cs (l : list string) :
  ~ In c l ->
  filter (fun s => negb (py_in s (c :: cs))) l = filter (fun s => negb (py_in s cs)) l.
Proof.
  intros Hn. apply filter_ext_in. intros y Hy.
  unfold py_in. simpl.
  destruct (String.eqb_spec y c) as [->|]; [contradiction|reflexivity].
Qed.

(** With no duplicate in the working set, what remains after the pass is
    the SKUs no record of the feed carries, in their order. *)
Lemma remaining_filter feed ids :
  NoDup ids ->
  Spec.remaining feed ids = filter (fun s => negb (py_in s (Spec.codes feed))) ids.
Proof.
  revert ids. induction feed as [|w rest IH]; intros ids Hnd; simpl.
  - symmetry. apply forallb_filter_id. now apply forallb_forall.
  - destruct (py_in (Spec.code_of w) ids) eqn:Hin.
    + rewrite IH by now apply remove_first_NoDup.
      rewrite remove_first_filter by assumption.
      apply filter_filter_negb_in.
    + rewrite IH by assumption. symmetry.
      apply filter_negb_in_skip. now apply py_in_false.
Qed.

(** ** Quantities *)

Lemma is_digit_not_space c : is_digit c = true -> is_space c = false.
Proof.
  unfold is_digit, is_space. rewrite andb_true_iff, !Nat.leb_le.
  intros [H1 H2]. apply orb_false_iff. split.
  - apply andb_false_iff. right. apply Nat.leb_gt. lia.
  - apply Nat.eqb_neq. lia.
Qed.

Lemma is_digit_not_sign c :
  is_digit c = true -> (c =? "-")%char = false /\ (c =? "+")%char = false.
Proof.
  intros H. split.
  - destruct (Ascii.eqb_spec c "-") as [->|]; [discriminate H|reflexivity].
  - destruct (Ascii.eqb_spec c "+") as [->|]; [discriminate H|reflexivity].
Qed.

Lemma rstrip_digits s : Spec.all_chars is_digit s = true -> rstrip s = s.
Proof.
  induction s as [|c r IH]; simpl; [reflexivity|].
  rewrite andb_true_iff. intros [Hc Hr]. rewrite (IH Hr).
  destruct r; [|reflexivity].
  now rewrite (is_digit_not_space c Hc).
Qed.

Lemma lstrip_digits s : Spec.all_chars is_digit s = true -> lstrip s = s.
Proof.
  destruct s as [|c r]; simpl; [reflexivity|].
  rewrite andb_true_iff. intros [Hc _].
  now rewrite (is_digit_not_space c Hc).
Qed.

Lemma digit_value_nonneg c : is_digit c = true -> (0 <= digit_value c <= 9)%Z.
Proof.
  unfold is_digit, digit_value. rewrite andb_true_iff, !Nat.leb_le. lia.
Qed.

Lemma parse_digits_all s :
  Spec.all_chars is_digit s = true ->
  forall acc b, (b = true \/ s <> "") -> (0 <= acc)%Z ->
  exists z, parse_digits acc b s = Some z /\ (0 <= z)%Z.
Proof.
  induction s as [|c r IH]; cbn [parse_digits Spec.all_chars];
    intros Hall acc b Hb Hacc.
  - destruct Hb as [->|Hb]; [|congruence]. now exists acc.
  - apply andb_true_iff in Hall. destruct Hall as [Hc Hr]. rewrite Hc.
    apply IH; [assumption|now left|].
    pose proof (digit_value_nonneg c Hc). lia.
Qed.

(** [int] accepts every decimal-integer string. *)
Lemma py_int_str_decimal s :
  Spec.decimal_string s = true -> exists z, py_int_str s = Some z /\ (0 <= z)%Z.
Proof.
  unfold Spec.decimal_string, py_int_str. rewrite andb_true_iff, negb_true_iff.
  intros [Hne Hall]. rewrite (rstrip_digits s Hall), (lstrip_digits s Hall).
  destruct s as [|c r]; [discriminate Hne|].
  pose proof Hall as Hall'. simpl in Hall'. apply andb_true_iff in Hall'.
  destruct (is_digit_not_sign c (proj1 Hall')) as [-> ->].
  apply parse_digits_all; [assumption|right; discriminate|lia].
Qed.

Lemma stock_count_text s :
  stock_count (VStr s)
  = match Spec.threshold_rule s with
    | Some n => Ok n
    | None => Raise ValueError
    end.
Proof.
  unfold stock_count, Spec.threshold_rule. simpl.
  destruct (s =? ">10"); [reflexivity|].
  destruct (s =? "1"); [reflexivity|].
  now destruct (py_int_str s).
Qed.


Lemma quantity_ok_count q :
  Spec.quantity_ok q -> exists n, stock_count q = Ok n /\ (0 <= n)%Z.
Proof.
  intros [->|[->|[s [-> Hs]]]].
  - exists 100%Z. split; [reflexivity|lia].
  - exists 0%Z. split; [reflexivity|lia].
  - rewrite stock_count_text. unfold Spec.threshold_rule.
    destruct (s =? ">10"); [exists 100%Z; split; [reflexivity|lia]|].
    destruct (s =? "1"); [exists 0%Z; split; [reflexivity|lia]|].
    destruct (py_int_str_decimal s Hs) as [z [-> Hz]]. now exists z.
Qed.


(** ** The reconciliation loop *)

Section ReconcileFacts.

Context {E : Type}.
Variable entry : string -> Z -> E.

Lemma reconcile_loop_ok feed : forall acc ids,
  Forall (fun w => exists n, stock_count (Количество w) = Ok n) (Spec.matched feed ids) ->
  reconcile_loop entry feed acc ids
  = (Ok (acc ++ map (fun w => entry (Spec.code_of w) (Spec.count_value (Количество w)))
                    (Spec.matched feed ids)),
     Spec.remaining feed ids).
Proof.
  induction feed as [|w rest IH]; intros acc ids Hok; simpl.
  - now rewrite app_nil_r.
  - fold (Spec.code_of w). simpl in Hok.
    destruct (py_in (Spec.code_of w) ids) eqn:Hin; [|now apply IH].
    inversion Hok as [|? ? [n Hn] Hrest]; subst.
    rewrite Hn, (py_remove_in _ _ Hin). simpl.
    rewrite IH by assumption. unfold Spec.count_value. rewrite Hn.
    now rewrite <- app_assoc.
Qed.


Lemma reconcile_ok feed ids :
  Forall (fun w => Spec.quantity_ok (Количество w)) (Spec.matched feed ids) ->
  reconcile entry feed ids
  = (Ok (Spec.expected_stocks entry feed ids), Spec.remaining feed ids).
Proof.
  intros Hok. unfold reconcile.
  rewrite reconcile_loop_ok; [reflexivity|].
  eapply Forall_impl; [|exact Hok].
  intros w Hw. simpl in Hw. destruct (quantity_ok_count _ Hw) as [n [Hn _]]. now exists n.
Qed.


End ReconcileFacts.

(** ** SKUs of the stock entries *)

Section ReconcileSkus.

Context {E : Type}.
Variable entry : string -> Z -> E.
Variable sku : E -> string.
Hypothesis sku_entry : forall c n, sku (entry c n) = c.

Lemma expected_stocks_skus feed ids :
  map sku (Spec.expected_stocks entry feed ids)
  = Spec.codes (Spec.matched feed ids) ++ Spec.remaining feed ids.
Proof.
  unfold Spec.expected_stocks, Spec.codes.
  rewrite map_app, !map_map. f_equal.
  - apply map_ext. intros w. apply sku_entry.
  - rewrite <- (map_id (Spec.remaining feed ids)) at 2.
    apply map_ext. intros c. apply sku_entry.
Qed.

Lemma expected_stocks_covers feed ids :
  NoDup ids -> Spec.covers (map sku (Spec.expected_stocks entry feed ids)) ids.
Proof.
  intros Hnd. rewrite expected_stocks_skus.
  pose proof (matched_remaining_perm feed ids) as Hp.
  repeat split.
  - now apply Permutation_length.
  - eapply Permutation_NoDup; [symmetry; exact Hp|assumption].
  - intros H. eapply Permutation_in; [exact Hp|assumption].
  - intros H. eapply Permutation_in; [symmetry; exact Hp|assumption].
Qed.

End ReconcileSkus.

Lemma seller_sku_entry c n : Seller.Stock.offer_id (seller_entry c n) = c.
Proof. reflexivity. Qed.

Lemma market_sku_entry wh date c n : Market.Stock.sku (market_entry wh date c n) = c.
Proof. reflexivity. Qed.

(** C1.  With no duplicate in [offer_ids] and every matched record's
    quantity one of ">10", "1" or a decimal-integer string, [create_stocks]
    returns, in both channels, as many stock entries as there are remote
    SKUs; their SKUs are pairwise distinct and are exactly the members of
    the initial [offer_ids]. *)
Theorem create_stocks_covers_offer_ids watch_remnants offer_ids :
  NoDup offer_ids ->
  Forall (fun w => Spec.quantity_ok (Количество w))
         (Spec.matched watch_remnants offer_ids) ->
  (exists stocks ids',
      Seller.create_stocks watch_remnants offer_ids = (Ok stocks, ids')
      /\ Spec.covers (map Seller.Stock.offer_id stocks) offer_ids)
  /\ (forall utcnow warehouse_id, exists stocks ids',
        Market.create_stocks utcnow watch_remnants offer_ids warehouse_id
        = (Ok stocks, ids')
        /\ Spec.covers (map Market.Stock.sku stocks) offer_ids).
Proof.
  intros Hnd Hok. split.
  - rewrite seller_create_stocks_reconcile, (reconcile_ok _ _ _ Hok).
    eexists. eexists. split; [reflexivity|].
    now apply expected_stocks_covers.
  - intros utcnow wh.
    rewrite market_create_stocks_reconcile, (reconcile_ok _ _ _ Hok).
    eexists. eexists. split; [reflexivity|].
    apply expected_stocks_covers; [|assumption].
    intros c n. apply market_sku_entry.
Qed.

Lemma sample_offer_ids_NoDup : NoDup Sample.offer_ids.
Proof.
  unfold Sample.offer_ids.
  constructor; [simpl; intros [H|[]]; discriminate H|].
  constructor; [simpl; tauto|constructor].
Defined.

Lemma sample_feed_quantities_ok :
  Forall (fun w => Spec.quantity_ok (Количество w))
         (Spec.matched Sample.feed Sample.offer_ids).
Proof.
  simpl. constructor; [|constructor]. left. reflexivity.
Defined.

Lemma create_stocks_covers_offer_ids_witness :
  (exists stocks ids',
      Seller.create_stocks Sample.feed Sample.offer_ids = (Ok stocks, ids')
      /\ Spec.covers (map Seller.Stock.offer_id stocks) Sample.offer_ids)
  /\ (forall utcnow warehouse_id, exists stocks ids',
        Market.create_stocks utcnow Sample.feed Sample.offer_ids warehouse_id
        = (Ok stocks, ids')
        /\ Spec.covers (map Market.Stock.sku stocks) Sample.offer_ids).
Proof.
  apply create_stocks_covers_offer_ids.
  - exact sample_offer_ids_NoDup.
  - exact sample_feed_quantities_ok.
Defined.

(** ** The caller's list, the threshold rule, malformed quantities *)

Lemma matched_subset feed : forall ids w,
  In w (Spec.matched feed ids) -> In w feed /\ In (Spec.code_of w) ids.
Proof.
  induction feed as [|x rest IH]; intros ids w; simpl; [tauto|].
  destruct (py_in (Spec.code_of x) ids) eqn:Hin.
  - intros [<-|H].
    + split; [now left|now apply py_in_In].
    + destruct (IH _ _ H) as [H1 H2]. split; [now right|].
      eapply remove_first_In, H2.
  - intros H. destruct (IH _ _ H). tauto.
Qed.

Lemma first_occurrence_In_matched pre w post ids :
  In (Spec.code_of w) ids -> ~ In (Spec.code_of w) (Spec.codes pre) ->
  In w (Spec.matched (pre ++ w :: post) ids).
Proof.
  intros Hc Hn. rewrite (first_occurrence_matched pre w post ids Hc Hn).
  apply in_or_app. right. now left.
Qed.

Lemma Forall_matched_In feed ids (P : watch -> Prop) w :
  Forall P (Spec.matched feed ids) -> In w (Spec.matched feed ids) -> P w.
Proof.
  intros H. now apply Forall_forall.
Qed.

Lemma expected_stocks_In {E : Type} (entry : string -> Z -> E) feed ids w n :
  In w (Spec.matched feed ids) -> stock_count (Количество w) = Ok n ->
  In (entry (Spec.code_of w) n) (Spec.expected_stocks entry feed ids).
Proof.
  intros Hin Hn. unfold Spec.expected_stocks. apply in_or_app. left.
  apply in_map_iff. exists w. split; [|assumption].
  unfold Spec.count_value. now rewrite Hn.
Qed.

(** C3, as amended.  [create_stocks] works on the caller's list itself:
    with no duplicate in [offer_ids] and well-formed matched quantities,
    the list the caller holds after the call is the initial one without
    every SKU that some feed record carries, the others in their order. *)
Theorem create_stocks_leaves_unmatched watch_remnants offer_ids :
  NoDup offer_ids ->
  Forall (fun w => Spec.quantity_ok (Количество w))
         (Spec.matched watch_remnants offer_ids) ->
  snd (Seller.create_stocks watch_remnants offer_ids)
  = filter (fun c => negb (py_in c (Spec.codes watch_remnants))) offer_ids
  /\ forall utcnow warehouse_id,
      snd (Market.create_stocks utcnow watch_remnants offer_ids warehouse_id)
      = filter (fun c => negb (py_in c (Spec.codes watch_remnants))) offer_ids.
Proof.
  intros Hnd Hok. split; [|intros utcnow wh].
  - rewrite seller_create_stocks_reconcile, (reconcile_ok _ _ _ Hok).
    now apply remaining_filter.
  - rewrite market_create_stocks_reconcile, (reconcile_ok _ _ _ Hok).
    now apply remaining_filter.
Qed.

Lemma create_stocks_leaves_unmatched_witness :
  snd (Seller.create_stocks Sample.feed Sample.offer_ids)
  = filter (fun c => negb (py_in c (Spec.codes Sample.feed))) Sample.offer_ids
  /\ forall utcnow warehouse_id,
      snd (Market.create_stocks utcnow Sample.feed Sample.offer_ids warehouse_id)
      = filter (fun c => negb (py_in c (Spec.codes Sample.feed))) Sample.offer_ids.
Proof.
  apply create_stocks_leaves_unmatched.
  - exact sample_offer_ids_NoDup.
  - exact sample_feed_quantities_ok.
Defined.

(** C3 as stated fails: after [create_stocks] on the scenario of the
    specification the caller's list is ["A3"], no longer ["A1"; "A3"]. *)
Lemma create_stocks_alters_offer_ids :
  snd (Seller.create_stocks Sample.feed Sample.offer_ids) = ["A3"]
  /\ snd (Seller.create_stocks Sample.feed Sample.offer_ids) <> Sample.offer_ids.
Proof.
  split; [reflexivity|]. vm_compute. discriminate.
Qed.

(** C5.  The first record of the feed that carries a given remote SKU gets,
    in both channels, a stock entry whose count is the one the threshold
    rule gives for its quantity text; and the rule maps ">10" to 100, "1"
    to 0, "7" to 7, "0" to 0 and "15" to 15. *)
Theorem stock_count_threshold_rule :
  (forall pre w post offer_ids s,
      In (Spec.code_of w) offer_ids ->
      ~ In (Spec.code_of w) (Spec.codes pre) ->
      Количество w = VStr s ->
      Forall (fun x => Spec.quantity_ok (Количество x))
             (Spec.matched (pre ++ w :: post) offer_ids) ->
      exists n,
        Spec.threshold_rule s = Some n
        /\ (exists stocks ids',
              Seller.create_stocks (pre ++ w :: post) offer_ids = (Ok stocks, ids')
              /\ In {| Seller.Stock.offer_id := Spec.code_of w;
                       Seller.Stock.stock := n |} stocks)
        /\ (forall utcnow warehouse_id, exists stocks ids',
              Market.create_stocks utcnow (pre ++ w :: post) offer_ids warehouse_id
              = (Ok stocks, ids')
              /\ In {| Market.Stock.sku := Spec.code_of w;
                       Market.Stock.warehouseId := warehouse_id;
                       Market.Stock.items :=
                         [{| Market.Item.count := n;
                             Market.Item.type := "FIT";
                             Market.Item.updatedAt := (utcnow ++ "Z")%string |}] |}
                    stocks))
  /\ Spec.threshold_rule ">10" = Some 100%Z
  /\ Spec.threshold_rule "1" = Some 0%Z
  /\ Spec.threshold_rule "7" = Some 7%Z
  /\ Spec.threshold_rule "0" = Some 0%Z
  /\ Spec.threshold_rule "15" = Some 15%Z
  /\ fst (Seller.create_stocks Sample.feed_quantities ["a"; "b"; "c"; "d"; "e"])
     = Ok [seller_entry "a" 100; seller_entry "b" 0; seller_entry "c" 7;
           seller_entry "d" 0; seller_entry "e" 15]
  /\ fst (Market.create_stocks "2024-01-01T00:00:00" Sample.feed_quantities
                               ["a"; "b"; "c"; "d"; "e"] "w")
     = Ok (map (fun '(sku, count) => market_entry "w" "2024-01-01T00:00:00Z" sku count)
               [("a", 100); ("b", 0); ("c", 7); ("d", 0); ("e", 15)]%Z).
Proof.
  split; [|repeat split; reflexivity].
  intros pre w post ids s Hc Hn Hq Hok.
  pose proof (first_occurrence_In_matched pre w post ids Hc Hn) as Hin.
  pose proof (Forall_matched_In _ _ _ _ Hok Hin) as Hw. simpl in Hw.
  destruct (quantity_ok_count _ Hw) as [n [Hcount _]].
  exists n. repeat split.
  - rewrite Hq, stock_count_text in Hcount.
    destruct (Spec.threshold_rule s); unfold Ok, Raise in Hcount; congruence.
  - rewrite seller_create_stocks_reconcile, (reconcile_ok _ _ _ Hok).
    eexists. eexists. split; [reflexivity|].
    now apply (expected_stocks_In seller_entry).
  - intros utcnow wh.
    rewrite market_create_stocks_reconcile, (reconcile_ok _ _ _ Hok).
    eexists. eexists. split; [reflexivity|].
    now apply (expected_stocks_In (market_entry wh (utcnow ++ "Z")%string)).
Qed.

Lemma stock_count_threshold_rule_witness :
  exists n,
    Spec.threshold_rule ">10" = Some n
    /\ (exists stocks ids',
          Seller.create_stocks Sample.feed Sample.offer_ids = (Ok stocks, ids')
          /\ In {| Seller.Stock.offer_id := "A1"; Seller.Stock.stock := n |} stocks)
    /\ (forall utcnow warehouse_id, exists stocks ids',
          Market.create_stocks utcnow Sample.feed Sample.offer_ids warehouse_id
          = (Ok stocks, ids')
          /\ In {| Market.Stock.sku := "A1";
                   Market.Stock.warehouseId := warehouse_id;
                   Market.Stock.items :=
                     [{| Market.Item.count := n;
                         Market.Item.type := "FIT";
                         Market.Item.updatedAt := (utcnow ++ "Z")%string |}] |}
                stocks).
Proof.
  apply (proj1 stock_count_threshold_rule []
               (Sample.record "A1" ">10" "100.00 x")
               [Sample.record "A2" "1" "50.00 x"] Sample.offer_ids ">10").
  - simpl. now left.
  - simpl. tauto.
  - reflexivity.
  - exact sample_feed_quantities_ok.
Defined.









(** ** Price entries *)

Lemma re_sub_keep_digits s : re_sub_class not_0_9 "" s = Spec.keep_digits s.
Proof.
  induction s as [|c r IH]; cbn [re_sub_class Spec.keep_digits]; [reflexivity|].
  rewrite IH. unfold not_0_9. now destruct (is_digit c).
Qed.

Lemma py_split_not_nil sep s : py_split sep s <> [].
Proof.
  destruct s as [|c r]; simpl; [discriminate|].
  destruct (c =? sep)%char; [discriminate|].
  destruct (py_split sep r); discriminate.
Qed.

Lemma py_split_first s : hd "" (py_split "." s) = Spec.before_first_dot s.
Proof.
  induction s as [|c r IH]; simpl; [reflexivity|].
  destruct (c =? ".")%char; [reflexivity|].
  destruct (py_split "." r) as [|p ps] eqn:Hs.
  - now destruct (py_split_not_nil "." r).
  - simpl in *. now rewrite IH.
Qed.

Lemma price_conversion_spec s :
  price_conversion s = Spec.keep_digits (Spec.before_first_dot s).
Proof.
  unfold price_conversion. now rewrite re_sub_keep_digits, py_split_first.
Qed.

Lemma keep_digits_all_digits s : Spec.all_chars is_digit (Spec.keep_digits s) = true.
Proof.
  induction s as [|c r IH]; simpl; [reflexivity|].
  destruct (is_digit c) eqn:Hc; simpl; [now rewrite Hc|assumption].
Qed.

Lemma keep_digits_none s :
  Spec.all_chars not_0_9 s = true -> Spec.keep_digits s = "".
Proof.
  induction s as [|c r IH]; simpl; [reflexivity|].
  unfold not_0_9 at 1. rewrite andb_true_iff, negb_true_iff.
  intros [-> Hr]. now apply IH.
Qed.

Lemma market_price_of_ok p : Spec.price_ok p -> exists v, Market.price_of p = Ok v.
Proof.
  intros [s [-> Hs]]. simpl.
  destruct (py_int_str_decimal (price_conversion s)) as [z [-> _]]; [|now exists z].
  unfold Spec.decimal_string. apply andb_true_iff. split.
  - apply negb_true_iff. now apply String.eqb_neq.
  - rewrite price_conversion_spec. apply keep_digits_all_digits.
Qed.

Lemma market_price_of_raises s e : Market.price_of (VStr s) = inl e -> e = ValueError.
Proof.
  simpl. destruct (py_int_str (price_conversion s)); [discriminate|].
  unfold Raise. congruence.
Qed.

Lemma seller_prices_loop_ok feed : forall acc ids,
  Forall (fun w => Spec.price_text (Цена w)) feed ->
  exists new,
    Seller.prices_loop feed acc ids = Ok (acc ++ new)
    /\ map Seller.Price.offer_id new = filter (fun c => py_in c ids) (Spec.codes feed)
    /\ forall w s, In w feed -> In (Spec.code_of w) ids -> Цена w = VStr s ->
                   In (seller_price (Spec.code_of w) (price_conversion s)) new.
Proof.
  induction feed as [|x rest IH]; intros acc ids Hall.
  - exists []. simpl. rewrite app_nil_r. repeat split. intros w s [].
  - inversion Hall as [|? ? [t Ht] Hrest]; subst. simpl.
    fold (Spec.code_of x). destruct (py_in (Spec.code_of x) ids) eqn:Hin.
    + rewrite Ht. simpl.
      destruct (IH (acc ++ [seller_price (Spec.code_of x) (price_conversion t)]) ids Hrest)
        as [new [Hrun [Hmap Hmem]]].
      exists (seller_price (Spec.code_of x) (price_conversion t) :: new).
      split; [|split].
      * unfold seller_price in Hrun. rewrite Hrun. now rewrite <- app_assoc.
      * simpl. now rewrite Hmap.
      * intros w s [<-|Hw] Hc Hp.
        -- left. congruence.
        -- right. now apply Hmem.
    + destruct (IH acc ids Hrest) as [new [Hrun [Hmap Hmem]]].
      exists new. split; [assumption|split; [assumption|]].
      intros w s [<-|Hw] Hc Hp.
      * apply py_in_In in Hc. congruence.
      * now apply Hmem.
Qed.


Lemma market_prices_loop_raises feed : forall acc ids,
  Forall (fun w => Spec.price_text (Цена w)) feed ->
  Exists (fun w => In (Spec.code_of w) ids
                   /\ exists s, Цена w = VStr s /\ price_conversion s = "") feed ->
  Market.prices_loop feed acc ids = Raise ValueError.
Proof.
  induction feed as [|x rest IH]; intros acc ids Hall Hex.
  - inversion Hex.
  - inversion Hall as [|? ? [t Ht] Hrest]; subst. simpl.
    fold (Spec.code_of x). destruct (py_in (Spec.code_of x) ids) eqn:Hin.
    + rewrite Ht. destruct (Market.price_of (VStr t)) as [e|v] eqn:Hp.
      * now rewrite (market_price_of_raises _ _ Hp).
      * simpl. apply IH; [assumption|].
        inversion Hex as [? ? [_ [s [Hs He]]]|]; subst; [|assumption].
        rewrite Ht in Hs. injection Hs as <-.
        simpl in Hp. rewrite He in Hp. discriminate Hp.
    + apply IH; [assumption|].
      inversion Hex as [? ? [Hc _]|]; subst; [|assumption].
      apply py_in_In in Hc. congruence.
Qed.

Lemma prices_loop_no_match feed : forall acc ids,
  (forall w, In w feed -> ~ In (Spec.code_of w) ids) ->
  Seller.prices_loop feed acc ids = Ok acc.
Proof.
  induction feed as [|x rest IH]; intros acc ids Hno; simpl; [reflexivity|].
  fold (Spec.code_of x).
  rewrite (proj2 (py_in_false _ _) (Hno x (or_introl eq_refl))).
  apply IH. intros w Hw. apply Hno. now right.
Qed.

(** ** Batches *)

Section Divide.

Context {A : Type}.

Lemma firstn_add (a b : nat) (l : list A) :
  firstn (a + b) l = firstn a l ++ firstn b (skipn a l).
Proof.
  revert l. induction a as [|a IH]; intros l; simpl; [reflexivity|].
  destruct l as [|x r]; simpl.
  - now rewrite firstn_nil.
  - now rewrite IH.
Qed.

(** A slice between two bounds that are not negative. *)
Lemma py_slice_nat (l : list A) (i m : nat) :
  py_slice l (Z.of_nat i) (Z.of_nat i + Z.of_nat m) = firstn m (skipn i l).
Proof.
  unfold py_slice, clip_index.
  destruct (Z.ltb_spec (Z.of_nat i) 0) as [H|_]; [lia|].
  destruct (Z.ltb_spec (Z.of_nat i + Z.of_nat m) 0) as [H|_]; [lia|].
  destruct (Nat.le_gt_cases (List.length l) i) as [Hle|Hgt].
  - rewrite (skipn_all2 l Hle), !firstn_nil.
    rewrite (Z.min_r (Z.of_nat i)), (Z.min_r (Z.of_nat i + Z.of_nat m)) by lia.
    now rewrite Z.sub_diag.
  - rewrite (Z.min_l (Z.of_nat i)) by lia. rewrite Nat2Z.id.
    destruct (Z.le_ge_cases (Z.of_nat i + Z.of_nat m) (Z.of_nat (List.length l))) as [H|H].
    + rewrite Z.min_l by lia. f_equal. lia.
    + rewrite Z.min_r by lia.
      rewrite (firstn_all2 (n := m)) by (rewrite length_skipn; lia).
      apply firstn_all2. rewrite length_skipn. lia.
Qed.

Lemma divide_batches (l : list A) (n : Z) :
  (0 < n)%Z ->
  divide l n
  = Ok (map (Spec.batch_at l (Z.to_nat n)) (seq 0 (range_len 0 (Z.of_nat (List.length l)) n))).
Proof.
  intros Hn. unfold divide, py_range.
  destruct (Z.eqb_spec n 0) as [H|_]; [lia|]. simpl. f_equal.
  rewrite map_map. apply map_ext. intros k. unfold Spec.batch_at.
  rewrite <- (py_slice_nat l (k * Z.to_nat n) (Z.to_nat n)).
  f_equal; lia.
Qed.

Lemma concat_batches (l : list A) (m c : nat) :
  List.concat (map (Spec.batch_at l m) (seq 0 c)) = firstn (c * m) l.
Proof.
  induction c as [|c IH]; [reflexivity|].
  rewrite seq_S, map_app, concat_app, IH. simpl.
  rewrite app_nil_r. unfold Spec.batch_at.
  rewrite <- firstn_add. f_equal. lia.
Qed.

Lemma range_len_bounds (len : nat) (n : Z) :
  (0 < n)%Z ->
  let c := range_len 0 (Z.of_nat len) n in
  (Z.of_nat len <= Z.of_nat c * n)%Z
  /\ (forall k, (S k < c)%nat -> (Z.of_nat (S k) * n <= Z.of_nat len)%Z)
  /\ (len = 0%nat -> c = 0%nat)
  /\ (len <> 0%nat -> (Z.of_nat len <= n)%Z -> c = 1%nat).
Proof.
  intros Hn. unfold range_len.
  destruct (Z.ltb_spec 0 n) as [_|H]; [|lia].
  destruct (Z.ltb_spec 0 (Z.of_nat len)) as [Hlen|Hlen].
  - replace (Z.of_nat len - 0 - 1)%Z with (Z.of_nat len - 1)%Z by lia.
    pose proof (Z.div_mod (Z.of_nat len - 1) n ltac:(lia)) as Hdm.
    pose proof (Z.mod_pos_bound (Z.of_nat len - 1) n Hn) as Hmod.
    assert (Hq : (0 <= (Z.of_nat len - 1) / n)%Z) by (apply Z.div_pos; lia).
    set (q := ((Z.of_nat len - 1) / n)%Z) in *.
    cbv zeta. rewrite Z2Nat.id by lia.
    split; [nia|]. split; [|split].
    + intros k Hk. assert (Z.of_nat (S k) <= q)%Z by lia. nia.
    + lia.
    + intros _ Hle. assert (Hq0 : q = 0%Z) by nia. now rewrite Hq0.
  - cbv zeta. split; [lia|]. split; [|split].
    + intros k Hk. lia.
    + reflexivity.
    + lia.
Qed.

Lemma batch_at_length (l : list A) (m k : nat) :
  List.length (Spec.batch_at l m k) = Nat.min m (List.length l - k * m).
Proof.
  unfold Spec.batch_at. now rewrite length_firstn, length_skipn.
Qed.

End Divide.

(** C8.  For a positive [n], [divide lst n] yields in order the slices
    [lst[0:n]], [lst[n:2n]], ...: each has at most [n] elements, each but
    the last exactly [n], and put end to end they are [lst]; an empty list
    gives no batch, and a list of at most [n] elements gives itself as the
    one batch.  [divide [1;2;3;4;5] 2] yields [[1;2];[3;4];[5]]. *)
Theorem divide_contiguous_batches :
  (forall (A : Type) (lst : list A) (n : Z),
      (0 < n)%Z ->
      exists batches,
        divide lst n = Ok batches
        /\ List.concat batches = lst
        /\ Forall (fun b => (Z.of_nat (List.length b) <= n)%Z) batches
        /\ (forall k, (S k < List.length batches)%nat ->
                      Z.of_nat (List.length (nth k batches [])) = n)
        /\ (forall k, (k < List.length batches)%nat ->
                      nth k batches []
                      = py_slice lst (Z.of_nat k * n) (Z.of_nat k * n + n))
        /\ (lst = [] -> batches = [])
        /\ (lst <> [] -> (Z.of_nat (List.length lst) <= n)%Z -> batches = [lst]))
  /\ divide [1; 2; 3; 4; 5]%Z 2 = Ok [[1; 2]; [3; 4]; [5]]%Z.
Proof.
  split; [|reflexivity].
  intros A lst n Hn.
  rewrite (divide_batches lst n Hn).
  destruct (range_len_bounds (List.length lst) n Hn) as [Hup [Hfull [Hnil Hone]]].
  set (c := range_len 0 (Z.of_nat (List.length lst)) n) in *.
  set (m := Z.to_nat n).
  assert (Hm : Z.of_nat m = n) by (subst m; lia).
  eexists. split; [reflexivity|].
  assert (Hlen : List.length (map (Spec.batch_at lst m) (seq 0 c)) = c)
    by now rewrite length_map, length_seq.
  assert (Hnth : forall k, (k < c)%nat ->
            nth k (map (Spec.batch_at lst m) (seq 0 c)) [] = Spec.batch_at lst m k).
  { intros k Hk.
    rewrite (nth_indep _ [] (Spec.batch_at lst m 0)) by (rewrite Hlen; exact Hk).
    rewrite (map_nth (Spec.batch_at lst m) (seq 0 c) 0%nat k).
    now rewrite seq_nth. }
  repeat split.
  - rewrite concat_batches. apply firstn_all2. nia.
  - apply Forall_forall. intros b Hb. apply in_map_iff in Hb.
    destruct Hb as [k [<- _]]. rewrite batch_at_length. lia.
  - rewrite Hlen. intros k Hk. rewrite (Hnth k) by lia.
    rewrite batch_at_length. specialize (Hfull k Hk). nia.
  - rewrite Hlen. intros k Hk. rewrite (Hnth k Hk). unfold Spec.batch_at.
    rewrite <- (py_slice_nat lst (k * m) m). f_equal; lia.
  - intros ->. now rewrite (Hnil eq_refl).
  - intros Hne Hle. rewrite (Hone ltac:(destruct lst; simpl; congruence) Hle).
    simpl. unfold Spec.batch_at. simpl. f_equal. apply firstn_all2. lia.
Qed.

Lemma divide_contiguous_batches_witness :
  exists batches,
    divide ["a"; "b"; "c"] 2 = Ok batches
    /\ List.concat batches = ["a"; "b"; "c"]
    /\ Forall (fun b => (Z.of_nat (List.length b) <= 2)%Z) batches
    /\ (forall k, (S k < List.length batches)%nat ->
                  Z.of_nat (List.length (nth k batches [])) = 2%Z)
    /\ (forall k, (k < List.length batches)%nat ->
                  nth k batches []
                  = py_slice ["a"; "b"; "c"] (Z.of_nat k * 2) (Z.of_nat k * 2 + 2))
    /\ (["a"; "b"; "c"] = [] -> batches = [])
    /\ (["a"; "b"; "c"] <> [] -> (Z.of_nat (List.length ["a"; "b"; "c"]) <= 2)%Z ->
        batches = [["a"; "b"; "c"]]).
Proof.
  apply (proj1 divide_contiguous_batches string ["a"; "b"; "c"] 2%Z).
  reflexivity.
Defined.

Lemma divide_ok {A : Type} (lst : list A) (n : Z) :
  (0 < n)%Z -> exists batches, divide lst n = Ok batches.
Proof.
  intros Hn. rewrite (divide_batches lst n Hn). eexists. reflexivity.
Qed.

(** ** Prices and duplicate codes *)

(** C6.  [price_conversion] returns the part of the text before its first
    decimal point with every character that is not a decimal digit
    removed; what follows the point is dropped, never rounded. *)
Theorem price_conversion_digits_before_dot :
  (forall s, price_conversion s = Spec.keep_digits (Spec.before_first_dot s))
  /\ price_conversion "5'990.00 руб." = "5990"
  /\ price_conversion "100 руб." = "100"
  /\ price_conversion "5.99" = "5"
  /\ price_conversion "1'999.99 руб." = "1999".
Proof.
  split; [exact price_conversion_spec|]. repeat split; reflexivity.
Qed.





(** C7, as amended.  A price text with no digit before its first decimal
    point is converted to the empty text.  Neither caller turns it into a
    zero: in a feed whose prices are all text, market's [create_prices]
    raises [ValueError] and returns no price list, while seller's
    [create_prices] raises nothing and emits the record's price entry with
    the empty text as its price. *)
Theorem price_without_digits :
  (forall s, Spec.all_chars not_0_9 (Spec.before_first_dot s) = true ->
             price_conversion s = "")
  /\ (forall watch_remnants offer_ids w s,
        Forall (fun x => Spec.price_text (Цена x)) watch_remnants ->
        In w watch_remnants -> In (Spec.code_of w) offer_ids ->
        Цена w = VStr s -> price_conversion s = "" ->
        (exists prices,
            Seller.create_prices watch_remnants offer_ids = Ok prices
            /\ In {| Seller.Price.auto_action_enabled := "UNKNOWN";
                     Seller.Price.currency_code := "RUB";
                     Seller.Price.offer_id := Spec.code_of w;
                     Seller.Price.old_price := "0";
                     Seller.Price.price := "" |} prices)
        /\ Market.create_prices watch_remnants offer_ids = Raise ValueError).
Proof.
  split.
  - intros s Hs. rewrite price_conversion_spec. now apply keep_digits_none.
  - intros feed ids w s Hall Hw Hc Hp He. split.
    + destruct (seller_prices_loop_ok feed [] ids Hall) as [new [Hrun [_ Hmem]]].
      exists new. split; [assumption|].
      specialize (Hmem w s Hw Hc Hp). now rewrite He in Hmem.
    + apply market_prices_loop_raises; [assumption|].
      apply Exists_exists. exists w. split; [assumption|].
      split; [assumption|]. now exists s.
Qed.

Lemma price_without_digits_witness :
  price_conversion "руб." = ""
  /\ (exists prices,
         Seller.create_prices Sample.feed_no_digit ["A1"] = Ok prices
         /\ In {| Seller.Price.auto_action_enabled := "UNKNOWN";
                  Seller.Price.currency_code := "RUB";
                  Seller.Price.offer_id := "A1";
                  Seller.Price.old_price := "0";
                  Seller.Price.price := "" |} prices)
  /\ Market.create_prices Sample.feed_no_digit ["A1"] = Raise ValueError.
Proof.
  split.
  - apply (proj1 price_without_digits "руб."). reflexivity.
  - apply (proj2 price_without_digits Sample.feed_no_digit ["A1"]
                 (Sample.record "A1" "3" "руб.") "руб.").
    + repeat constructor. now exists "руб.".
    + now left.
    + now left.
    + reflexivity.
    + reflexivity.
Defined.

(** C7 as stated fails for seller: the record whose price has no digit is
    not reported, its entry is emitted with an empty price. *)
Lemma seller_emits_empty_price :
  price_conversion "руб." = ""
  /\ Seller.create_prices Sample.feed_no_digit ["A1"] = Ok [seller_price "A1" ""].
Proof. split; reflexivity. Qed.

(** ** The orchestrating functions *)

Lemma for_each_batch_ok {A R : Type} (send : nat -> A -> result R) batches :
  (forall k b, exists r, send k b = Ok r) ->
  forall k, for_each_batch send k batches = Ok tt.
Proof.
  intros Hsend. induction batches as [|b rest IH]; intros k; simpl; [reflexivity|].
  destruct (Hsend k b) as [r ->]. simpl. apply IH.
Qed.

Lemma reconcile_loop_entries {E : Type} (entry : string -> Z -> E) (P : E -> Prop) feed :
  (forall c n, P (entry c n)) ->
  forall acc ids stocks ids',
    Forall P acc ->
    reconcile_loop entry feed acc ids = (Ok stocks, ids') ->
    Forall P stocks /\ ids' = Spec.remaining feed ids.
Proof.
  intros HP. induction feed as [|w rest IH]; intros acc ids stocks ids' Hacc; simpl.
  - unfold Ok. intros H. injection H as <- <-. now split.
  - fold (Spec.code_of w).
    destruct (py_in (Spec.code_of w) ids) eqn:Hin; [|now apply IH].
    destruct (stock_count (Количество w)) as [e|n]; [discriminate|].
    rewrite (py_remove_in _ _ Hin). simpl. apply IH.
    apply Forall_app. split; [assumption|]. constructor; [apply HP|constructor].
Qed.

Lemma reconcile_entries {E : Type} (entry : string -> Z -> E) (P : E -> Prop)
    feed ids stocks ids' :
  (forall c n, P (entry c n)) ->
  reconcile entry feed ids = (Ok stocks, ids') ->
  Forall P stocks /\ ids' = Spec.remaining feed ids.
Proof.
  intros HP. unfold reconcile.
  destruct (reconcile_loop entry feed [] ids) as [[e|matched] rest] eqn:Hloop;
    [discriminate|].
  destruct (reconcile_loop_entries entry P feed HP [] ids matched rest
              (Forall_nil P) Hloop) as [Hm ->].
  unfold Ok. intros H. injection H as <- <-. split; [|reflexivity].
  apply Forall_app. split; [assumption|].
  apply Forall_forall. intros x Hx. apply in_map_iff in Hx.
  destruct Hx as [c [<- _]]. apply HP.
Qed.

Lemma py_filter_count_not_zero stocks :
  Forall (fun e => Market.Stock.items e <> []) stocks ->
  py_filter Market.count_not_zero stocks = Ok (filter Spec.market_nonzero stocks).
Proof.
  induction 1 as [|e rest He Hrest IH]; simpl; [reflexivity|].
  unfold Market.count_not_zero at 1, Spec.market_nonzero at 1.
  destruct (Market.Stock.items e) as [|item items]; [congruence|].
  simpl. rewrite IH. simpl. now destruct (negb _).
Qed.

(** C9.  When the reconciliation returns [stocks] and every request is
    answered, [upload_stocks] returns the pair made of the entries of
    [stocks] whose count is not zero, in their order in [stocks], and of
    [stocks] itself; so in both channels. *)
Theorem upload_stocks_returns_nonzero_and_all :
  (forall (response : Type) update_stocks watch_remnants offer_ids stocks ids',
      Seller.create_stocks watch_remnants offer_ids = (Ok stocks, ids') ->
      (forall k batch, exists r : response, update_stocks k batch = Ok r) ->
      Seller.upload_stocks response (Ok offer_ids) update_stocks watch_remnants
      = Ok (filter Spec.seller_nonzero stocks, stocks))
  /\ (forall (response : Type) utcnow update_stocks watch_remnants offer_ids
             warehouse_id stocks ids',
        Market.create_stocks utcnow watch_remnants offer_ids warehouse_id
        = (Ok stocks, ids') ->
        (forall k batch, exists r : response, update_stocks k batch = Ok r) ->
        Market.upload_stocks response utcnow (Ok offer_ids) update_stocks
                             watch_remnants warehouse_id
        = Ok (filter Spec.market_nonzero stocks, stocks)).
Proof.
  split.
  - intros response send feed ids stocks ids' Hrun Hsend.
    unfold Seller.upload_stocks. cbn [bind Ok]. rewrite Hrun. cbn [bind Ok fst].
    destruct (divide_ok stocks 100 eq_refl) as [batches ->]. cbn [bind Ok].
    now rewrite (for_each_batch_ok send batches Hsend).
  - intros response utcnow send feed ids wh stocks ids' Hrun Hsend.
    unfold Market.upload_stocks. cbn [bind Ok]. rewrite Hrun. cbn [bind Ok fst].
    destruct (divide_ok stocks 2000 eq_refl) as [batches ->]. cbn [bind Ok].
    rewrite (for_each_batch_ok send batches Hsend). cbn [bind Ok].
    rewrite py_filter_count_not_zero; [reflexivity|].
    rewrite market_create_stocks_reconcile in Hrun.
    apply (reconcile_entries _ (fun e => Market.Stock.items e <> []) _ _ _ _) in Hrun;
      [tauto|].
    intros c n. discriminate.
Qed.

Lemma upload_stocks_returns_nonzero_and_all_witness :
  Seller.upload_stocks unit (Ok Sample.offer_ids) (fun _ _ => Ok tt) Sample.feed
  = Ok (filter Spec.seller_nonzero [seller_entry "A1" 100; seller_entry "A3" 0],
        [seller_entry "A1" 100; seller_entry "A3" 0])
  /\ Market.upload_stocks unit "2024-01-01T00:00:00" (Ok Sample.offer_ids)
                          (fun _ _ => Ok tt) Sample.feed "w"
     = Ok (filter Spec.market_nonzero
                  [market_entry "w" "2024-01-01T00:00:00Z" "A1" 100;
                   market_entry "w" "2024-01-01T00:00:00Z" "A3" 0],
           [market_entry "w" "2024-01-01T00:00:00Z" "A1" 100;
            market_entry "w" "2024-01-01T00:00:00Z" "A3" 0]).
Proof.
  split.
  - apply (proj1 upload_stocks_returns_nonzero_and_all unit (fun _ _ => Ok tt)
                 Sample.feed Sample.offer_ids _ ["A3"]).
    + reflexivity.
    + intros k batch. now exists tt.
  - apply (proj2 upload_stocks_returns_nonzero_and_all unit "2024-01-01T00:00:00"
                 (fun _ _ => Ok tt) Sample.feed Sample.offer_ids "w" _ ["A3"]).
    + reflexivity.
    + intros k batch. now exists tt.
Defined.

(** With no duplicate among the remote SKUs, the [try] block of [main]
    never has a price to send: [create_prices] is handed the list that
    [create_stocks] has just emptied of every SKU the feed carries. *)
Lemma seller_main_prices_empty (response : Type) update_stocks update_price
    watch_remnants offer_ids stocks prices :
  NoDup offer_ids ->
  Seller.main response (Ok offer_ids) (Ok watch_remnants) update_stocks update_price
  = Ok (stocks, prices) ->
  prices = [].
Proof.
  intros Hnd. unfold Seller.main. cbn [bind Ok].
  destruct (Seller.create_stocks watch_remnants offer_ids) as [[e|st] ids1] eqn:Hrun;
    cbn [bind]; [discriminate|].
  rewrite seller_create_stocks_reconcile in Hrun.
  destruct (reconcile_entries seller_entry (fun _ => True) _ _ _ _
              (fun _ _ => I) Hrun) as [_ ->].
  destruct (divide st 100) as [e|b1]; cbn [bind]; [discriminate|].
  destruct (for_each_batch update_stocks 0 b1) as [e|[]]; cbn [bind]; [discriminate|].
  unfold Seller.create_prices. rewrite prices_loop_no_match.
  - cbn [bind Ok]. destruct (divide [] 900) as [e|b2]; cbn [bind]; [discriminate|].
    destruct (for_each_batch update_price 0 b2) as [e|[]]; cbn [bind]; [discriminate|].
    unfold Ok. intros H. now injection H.
  - intros w Hw. rewrite (remaining_filter _ _ Hnd), filter_In.
    intros [_ Hc]. apply negb_true_iff, py_in_false in Hc. apply Hc.
    unfold Spec.codes. now apply in_map.
Qed.

(** C2, on the code: on the scenario of the specification the [try] block
    of [main] ends with the stock entries of A1 and A3 and with no price
    entry at all, although A1 is both in the feed and in the remote SKU
    list; [create_prices] on the list as fetched does price A1. *)
Theorem seller_main_prices_scenario :
  Seller.main unit (Ok Sample.offer_ids) (Ok Sample.feed)
              (fun _ _ => Ok tt) (fun _ _ => Ok tt)
  = Ok ([seller_entry "A1" 100; seller_entry "A3" 0], [])
  /\ Seller.create_prices Sample.feed Sample.offer_ids = Ok [seller_price "A1" "100"]
  /\ filter (fun c => py_in c Sample.offer_ids) (Spec.codes Sample.feed) = ["A1"].
Proof. repeat split; reflexivity. Qed.

(** ** Sanity checks of the embedding *)

Example py_int_str_examples :
  py_int_str "7" = Some 7%Z /\ py_int_str " -1_000 " = Some (-1000)%Z
  /\ py_int_str "" = None /\ py_int_str "1__0" = None /\ py_int_str ">10" = None
  /\ py_int_str "0012" = Some 12%Z /\ py_int_str "+ 1" = None
  /\ py_int_str "12 руб" = None.
Proof. repeat split; reflexivity. Qed.

Example py_str_examples :
  py_str (VInt 0) = "0" /\ py_str (VInt (-15)) = "-15" /\ py_str (VInt 70421) = "70421".
Proof. repeat split; reflexivity. Qed.

Example numeric_cells :
  fst (Seller.create_stocks
         [{| Код := VInt 70421; Количество := VInt 1; Цена := VStr "5'990.00 руб." |};
          {| Код := VInt 70422; Количество := VInt 12; Цена := VStr "990.00 руб." |}]
         ["70422"; "70421"])
  = Ok [seller_entry "70421" 0; seller_entry "70422" 12].
Proof. reflexivity. Qed.

Example py_split_examples :
  py_split "." "5'990.00 руб." = ["5'990"; "00 руб"; ""]
  /\ py_split "." "" = [""] /\ py_split "." "abc" = ["abc"].
Proof. repeat split; reflexivity. Qed.

Example divide_examples :
  divide [1; 2; 3]%Z 0 = Raise ValueError
  /\ divide [1; 2; 3]%Z (-1) = Ok []
  /\ divide [1; 2; 3]%Z 5 = Ok [[1; 2; 3]%Z]
  /\ divide (@nil Z) 5 = Ok [].
Proof. repeat split; reflexivity. Qed.

Example py_slice_examples :
  py_slice [1; 2; 3; 4; 5]%Z 1 3 = [2; 3]%Z
  /\ py_slice [1; 2; 3; 4; 5]%Z (-2) 9 = [4; 5]%Z
  /\ py_slice [1; 2; 3; 4; 5]%Z 4 2 = [].
Proof. repeat split; reflexivity. Qed.

(** * Further properties of the code *)

(** ** More on [create_stocks] *)

Lemma filter_negb_eqb_in c seen (l : list string) :
  filter (fun s => negb (String.eqb s c)) (filter (fun s => negb (py_in s seen)) l)
  = filter (fun s => negb (py_in s (c :: seen))) l.
Proof.
  induction l as [|y r IH]; [reflexivity|].
  cbn [filter]. replace (py_in y (c :: seen)) with (String.eqb y c || py_in y seen)
    by reflexivity.
  destruct (py_in y seen); cbn [negb filter].
  - rewrite orb_true_r. exact IH.
  - rewrite orb_false_r. destruct (String.eqb y c); cbn [negb]; now rewrite IH.
Qed.

Lemma filter_all_true {A : Type} (f : A -> bool) (l : list A) :
  (forall x, In x l -> f x = true) -> filter f l = l.
Proof.
  induction l as [|a r IH]; simpl; [reflexivity|].
  intros H. rewrite (H a (or_introl eq_refl)). f_equal. apply IH.
  intros x Hx. apply H. now right.
Qed.

Lemma py_in_filter_negb c seen (l : list string) :
  py_in c (filter (fun s => negb (py_in s seen)) l)
  = py_in c l && negb (py_in c seen).
Proof.
  destruct (py_in c (filter _ l)) eqn:H1.
  - apply py_in_In, filter_In in H1. destruct H1 as [H1 H2].
    apply py_in_In in H1. now rewrite H1, H2.
  - destruct (py_in c l) eqn:H2; [|reflexivity].
    destruct (py_in c seen) eqn:H3; [reflexivity|].
    apply py_in_false in H1. exfalso. apply H1, filter_In.
    split; [now apply py_in_In|now rewrite H3].
Qed.

(** With no duplicate among the SKUs, the codes of the matched records are
    the codes of the feed that are SKUs, each at its first occurrence. *)
Lemma matched_codes_keep_first feed : forall ids seen,
  NoDup ids ->
  Spec.codes (Spec.matched feed (filter (fun c => negb (py_in c seen)) ids))
  = Spec.keep_first seen (filter (fun c => py_in c ids) (Spec.codes feed)).
Proof.
  induction feed as [|w rest IH]; intros ids seen Hnd; simpl; [reflexivity|].
  rewrite py_in_filter_negb.
  destruct (py_in (Spec.code_of w) ids) eqn:Hin; simpl; [|now apply IH].
  destruct (py_in (Spec.code_of w) seen) eqn:Hseen; simpl; [now apply IH|].
  f_equal. rewrite <- IH by assumption. f_equal. f_equal.
  rewrite remove_first_filter by now apply NoDup_filter.
  apply filter_negb_eqb_in.
Qed.

Lemma matched_codes_first_occurrences feed ids :
  NoDup ids ->
  Spec.codes (Spec.matched feed ids)
  = Spec.keep_first [] (filter (fun c => py_in c ids) (Spec.codes feed)).
Proof.
  intros Hnd. rewrite <- (matched_codes_keep_first feed ids [] Hnd).
  now rewrite (filter_all_true _ ids) by reflexivity.
Qed.

(** Records whose code is not in the list of SKUs never reach the working
    set. *)
Lemma reconcile_loop_only_remote {E : Type} (entry : string -> Z -> E) ids feed :
  forall acc working,
    (forall c, In c working -> In c ids) ->
    reconcile_loop entry feed acc working
    = reconcile_loop entry (Spec.with_code_in ids feed) acc working.
Proof.
  induction feed as [|w rest IH]; intros acc working Hsub; simpl; [reflexivity|].
  fold (Spec.code_of w).
  destruct (py_in (Spec.code_of w) ids) eqn:Hin; simpl.
  - fold (Spec.code_of w).
    destruct (py_in (Spec.code_of w) working) eqn:Hw; [|now apply IH].
    destruct (stock_count (Количество w)); [reflexivity|].
    rewrite (py_remove_in _ _ Hw). simpl. apply IH.
    intros c Hc. apply Hsub. eapply remove_first_In, Hc.
  - assert (Hw : py_in (Spec.code_of w) working = false).
    { apply py_in_false. intros H. apply py_in_false in Hin. now apply Hin, Hsub. }
    rewrite Hw. now apply IH.
Qed.

Lemma reconcile_only_remote {E : Type} (entry : string -> Z -> E) feed ids :
  reconcile entry feed ids = reconcile entry (Spec.with_code_in ids feed) ids.
Proof.
  unfold reconcile. now rewrite (reconcile_loop_only_remote entry ids feed [] ids).
Qed.

Lemma count_value_nonneg q : Spec.quantity_ok q -> (0 <= Spec.count_value q)%Z.
Proof.
  intros H. destruct (quantity_ok_count q H) as [n [Hn Hpos]].
  unfold Spec.count_value. now rewrite Hn.
Qed.

(** X1.  Whatever the list of remote SKUs, repeated SKUs included, the
    SKUs of the stock entries are the remote SKUs in another order: an SKU
    listed k times gets k stock entries. *)
Theorem create_stocks_skus_permutation watch_remnants offer_ids :
  Forall (fun w => Spec.quantity_ok (Количество w))
         (Spec.matched watch_remnants offer_ids) ->
  (exists stocks ids',
      Seller.create_stocks watch_remnants offer_ids = (Ok stocks, ids')
      /\ Permutation (map Seller.Stock.offer_id stocks) offer_ids)
  /\ (forall utcnow warehouse_id, exists stocks ids',
        Market.create_stocks utcnow watch_remnants offer_ids warehouse_id
        = (Ok stocks, ids')
        /\ Permutation (map Market.Stock.sku stocks) offer_ids).
Proof.
  intros Hok. split; [|intros utcnow wh].
  - rewrite seller_create_stocks_reconcile, (reconcile_ok _ _ _ Hok).
    eexists. eexists. split; [reflexivity|].
    rewrite (expected_stocks_skus seller_entry Seller.Stock.offer_id seller_sku_entry).
    apply matched_remaining_perm.
  - rewrite market_create_stocks_reconcile, (reconcile_ok _ _ _ Hok).
    eexists. eexists. split; [reflexivity|].
    rewrite (expected_stocks_skus _ Market.Stock.sku
               (market_sku_entry wh (utcnow ++ "Z")%string)).
    apply matched_remaining_perm.
Qed.

Lemma sample_feed_repeat_quantities_ok :
  Forall (fun w => Spec.quantity_ok (Количество w))
         (Spec.matched Sample.feed_repeat Sample.offer_ids_repeat).
Proof.
  simpl. apply Forall_cons; [|apply Forall_cons; [|apply Forall_nil]];
    right; right; eexists; split; reflexivity.
Defined.

Lemma create_stocks_skus_permutation_witness :
  (exists stocks ids',
      Seller.create_stocks Sample.feed_repeat Sample.offer_ids_repeat = (Ok stocks, ids')
      /\ Permutation (map Seller.Stock.offer_id stocks) Sample.offer_ids_repeat)
  /\ (forall utcnow warehouse_id, exists stocks ids',
        Market.create_stocks utcnow Sample.feed_repeat Sample.offer_ids_repeat
                             warehouse_id
        = (Ok stocks, ids')
        /\ Permutation (map Market.Stock.sku stocks) Sample.offer_ids_repeat).
Proof.
  apply create_stocks_skus_permutation. exact sample_feed_repeat_quantities_ok.
Defined.

(** X2.  With no duplicate among the remote SKUs, the stock entries come
    in a fixed order: first the SKUs the feed carries, each once and in the
    order of their first record, then the SKUs the feed does not carry, in
    the order of the remote list; and an entry whose SKU the feed does not
    carry has count 0. *)
Theorem create_stocks_order watch_remnants offer_ids :
  NoDup offer_ids ->
  Forall (fun w => Spec.quantity_ok (Количество w))
         (Spec.matched watch_remnants offer_ids) ->
  (exists stocks ids',
      Seller.create_stocks watch_remnants offer_ids = (Ok stocks, ids')
      /\ map Seller.Stock.offer_id stocks
         = Spec.keep_first []
             (filter (fun c => py_in c offer_ids) (Spec.codes watch_remnants))
           ++ filter (fun c => negb (py_in c (Spec.codes watch_remnants))) offer_ids
      /\ Forall (fun e => In (Seller.Stock.offer_id e) (Spec.codes watch_remnants)
                          \/ Seller.Stock.stock e = 0%Z) stocks)
  /\ (forall utcnow warehouse_id, exists stocks ids',
        Market.create_stocks utcnow watch_remnants offer_ids warehouse_id
        = (Ok stocks, ids')
        /\ map Market.Stock.sku stocks
           = Spec.keep_first []
               (filter (fun c => py_in c offer_ids) (Spec.codes watch_remnants))
             ++ filter (fun c => negb (py_in c (Spec.codes watch_remnants))) offer_ids
        /\ Forall (fun e => In (Market.Stock.sku e) (Spec.codes watch_remnants)
                            \/ map Market.Item.count (Market.Stock.items e) = [0%Z])
                  stocks).
Proof.
  intros Hnd Hok.
  assert (Hzero : forall (E : Type) (entry : string -> Z -> E) (sku : E -> string)
                         (P : E -> Prop),
             (forall c n, sku (entry c n) = c) -> (forall c, P (entry c 0%Z)) ->
             Forall (fun e => In (sku e) (Spec.codes watch_remnants) \/ P e)
                    (Spec.expected_stocks entry watch_remnants offer_ids)).
  { intros E entry sku P Hsku HP. unfold Spec.expected_stocks.
    apply Forall_app. split; apply Forall_forall; intros e He;
      apply in_map_iff in He; destruct He as [x [<- Hx]].
    - left. rewrite Hsku. apply (in_map Spec.code_of).
      now destruct (matched_subset _ _ _ Hx).
    - right. apply HP. }
  split; [|intros utcnow wh].
  - rewrite seller_create_stocks_reconcile, (reconcile_ok _ _ _ Hok).
    eexists. eexists. split; [reflexivity|]. split.
    + rewrite (expected_stocks_skus seller_entry Seller.Stock.offer_id seller_sku_entry).
      now rewrite matched_codes_first_occurrences, remaining_filter.
    + apply (Hzero _ seller_entry Seller.Stock.offer_id
                   (fun e => Seller.Stock.stock e = 0%Z)); reflexivity.
  - rewrite market_create_stocks_reconcile, (reconcile_ok _ _ _ Hok).
    eexists. eexists. split; [reflexivity|]. split.
    + rewrite (expected_stocks_skus _ Market.Stock.sku
                 (market_sku_entry wh (utcnow ++ "Z")%string)).
      now rewrite matched_codes_first_occurrences, remaining_filter.
    + apply (Hzero _ (market_entry wh (utcnow ++ "Z")%string) Market.Stock.sku
                   (fun e => map Market.Item.count (Market.Stock.items e) = [0%Z]));
        reflexivity.
Qed.

Lemma create_stocks_order_witness :
  (exists stocks ids',
      Seller.create_stocks Sample.feed Sample.offer_ids = (Ok stocks, ids')
      /\ map Seller.Stock.offer_id stocks
         = Spec.keep_first []
             (filter (fun c => py_in c Sample.offer_ids) (Spec.codes Sample.feed))
           ++ filter (fun c => negb (py_in c (Spec.codes Sample.feed))) Sample.offer_ids
      /\ Forall (fun e => In (Seller.Stock.offer_id e) (Spec.codes Sample.feed)
                          \/ Seller.Stock.stock e = 0%Z) stocks)
  /\ (forall utcnow warehouse_id, exists stocks ids',
        Market.create_stocks utcnow Sample.feed Sample.offer_ids warehouse_id
        = (Ok stocks, ids')
        /\ map Market.Stock.sku stocks
           = Spec.keep_first []
               (filter (fun c => py_in c Sample.offer_ids) (Spec.codes Sample.feed))
             ++ filter (fun c => negb (py_in c (Spec.codes Sample.feed)))
                       Sample.offer_ids
        /\ Forall (fun e => In (Market.Stock.sku e) (Spec.codes Sample.feed)
                            \/ map Market.Item.count (Market.Stock.items e) = [0%Z])
                  stocks).
Proof.
  apply create_stocks_order.
  - exact sample_offer_ids_NoDup.
  - exact sample_feed_quantities_ok.
Defined.

(** X3.  The records whose code is not a remote SKU have no part in
    [create_stocks]: dropping them from the feed changes neither the
    outcome (stock list or exception) nor what is left of the caller's
    list, however their quantities read. *)
Theorem create_stocks_ignores_other_records watch_remnants offer_ids :
  Seller.create_stocks watch_remnants offer_ids
  = Seller.create_stocks (Spec.with_code_in offer_ids watch_remnants) offer_ids
  /\ forall utcnow warehouse_id,
      Market.create_stocks utcnow watch_remnants offer_ids warehouse_id
      = Market.create_stocks utcnow (Spec.with_code_in offer_ids watch_remnants)
                             offer_ids warehouse_id.
Proof.
  split; [|intros utcnow wh].
  - rewrite !seller_create_stocks_reconcile. apply reconcile_only_remote.
  - rewrite !market_create_stocks_reconcile. apply reconcile_only_remote.
Qed.

(** X4.  When every matched quantity is ">10", "1" or a decimal-integer
    string, no stock entry carries a negative count. *)
Theorem create_stocks_counts_not_negative watch_remnants offer_ids :
  Forall (fun w => Spec.quantity_ok (Количество w))
         (Spec.matched watch_remnants offer_ids) ->
  (exists stocks ids',
      Seller.create_stocks watch_remnants offer_ids = (Ok stocks, ids')
      /\ Forall (fun e => (0 <= Seller.Stock.stock e)%Z) stocks)
  /\ (forall utcnow warehouse_id, exists stocks ids',
        Market.create_stocks utcnow watch_remnants offer_ids warehouse_id
        = (Ok stocks, ids')
        /\ Forall (fun e => Forall (fun item => (0 <= Market.Item.count item)%Z)
                                   (Market.Stock.items e)) stocks).
Proof.
  intros Hok.
  assert (Hall : forall (E : Type) (entry : string -> Z -> E) (P : E -> Prop),
             (forall c n, (0 <= n)%Z -> P (entry c n)) ->
             Forall P (Spec.expected_stocks entry watch_remnants offer_ids)).
  { intros E entry P HP. unfold Spec.expected_stocks.
    apply Forall_app. split; apply Forall_forall; intros e He;
      apply in_map_iff in He; destruct He as [x [<- Hx]]; apply HP; [|lia].
    apply count_value_nonneg. exact (Forall_matched_In _ _ _ _ Hok Hx). }
  split; [|intros utcnow wh].
  - rewrite seller_create_stocks_reconcile, (reconcile_ok _ _ _ Hok).
    eexists. eexists. split; [reflexivity|].
    apply Hall. intros c n Hn. exact Hn.
  - rewrite market_create_stocks_reconcile, (reconcile_ok _ _ _ Hok).
    eexists. eexists. split; [reflexivity|].
    apply Hall. intros c n Hn. simpl. now repeat constructor.
Qed.

Lemma create_stocks_counts_not_negative_witness :
  (exists stocks ids',
      Seller.create_stocks Sample.feed Sample.offer_ids = (Ok stocks, ids')
      /\ Forall (fun e => (0 <= Seller.Stock.stock e)%Z) stocks)
  /\ (forall utcnow warehouse_id, exists stocks ids',
        Market.create_stocks utcnow Sample.feed Sample.offer_ids warehouse_id
        = (Ok stocks, ids')
        /\ Forall (fun e => Forall (fun item => (0 <= Market.Item.count item)%Z)
                                   (Market.Stock.items e)) stocks).
Proof.
  apply create_stocks_counts_not_negative. exact sample_feed_quantities_ok.
Defined.

(** ** More on [price_conversion] and [create_prices] *)

Lemma before_first_dot_app a b :
  Spec.before_first_dot (a ++ String "." b)%string = Spec.before_first_dot a.
Proof.
  induction a as [|c r IH]; simpl; [reflexivity|].
  destruct (c =? ".")%char; [reflexivity|now rewrite IH].
Qed.

Lemma keep_digits_id s : Spec.all_chars is_digit s = true -> Spec.keep_digits s = s.
Proof.
  induction s as [|c r IH]; simpl; [reflexivity|].
  rewrite andb_true_iff. intros [Hc Hr]. now rewrite Hc, IH.
Qed.

Lemma before_first_dot_digits s :
  Spec.all_chars is_digit s = true -> Spec.before_first_dot s = s.
Proof.
  induction s as [|c r IH]; simpl; [reflexivity|].
  rewrite andb_true_iff. intros [Hc Hr].
  destruct (Ascii.eqb_spec c ".") as [->|_]; [discriminate Hc|now rewrite IH].
Qed.

Lemma price_conversion_digits s :
  Spec.all_chars is_digit s = true -> price_conversion s = s.
Proof.
  intros H. rewrite price_conversion_spec, before_first_dot_digits by assumption.
  now apply keep_digits_id.
Qed.

(** X5.  The result of [price_conversion] holds decimal digits only;
    converting again changes nothing; and whatever follows a decimal
    point is without effect, so the fraction is cut off, never rounded. *)
Theorem price_conversion_digits_only :
  (forall s, Spec.all_chars is_digit (price_conversion s) = true)
  /\ (forall s, price_conversion (price_conversion s) = price_conversion s)
  /\ (forall a b, price_conversion (a ++ String "." b)%string = price_conversion a).
Proof.
  split; [|split].
  - intros s. rewrite price_conversion_spec. apply keep_digits_all_digits.
  - intros s. apply price_conversion_digits.
    rewrite price_conversion_spec. apply keep_digits_all_digits.
  - intros a b. now rewrite !price_conversion_spec, before_first_dot_app.
Qed.

Lemma seller_price_of_text c :
  Seller.price_of c
  = if Spec.is_text c then Ok (price_conversion (Spec.cell_text c))
    else Raise AttributeError.
Proof. now destruct c. Qed.

Lemma seller_prices_loop_total feed : forall acc ids,
  Seller.prices_loop feed acc ids
  = if forallb (fun w => Spec.is_text (Цена w)) (Spec.with_code_in ids feed)
    then Ok (acc ++ map (fun w => seller_price (Spec.code_of w)
                                    (price_conversion (Spec.cell_text (Цена w))))
                        (Spec.with_code_in ids feed))
    else Raise AttributeError.
Proof.
  induction feed as [|w rest IH]; intros acc ids; simpl.
  - now rewrite app_nil_r.
  - fold (Spec.code_of w). destruct (py_in (Spec.code_of w) ids); [|apply IH].
    simpl. rewrite seller_price_of_text.
    destruct (Spec.is_text (Цена w)); simpl; [|reflexivity].
    fold (seller_price (Spec.code_of w) (price_conversion (Spec.cell_text (Цена w)))).
    rewrite IH. destruct (forallb _ _); [|reflexivity].
    now rewrite <- app_assoc.
Qed.

(** X6.  Seller's [create_prices] in full: when the price of every record
    whose code is in [offer_ids] is text, it returns one entry per such
    record, in feed order, with the record's code and the conversion of its
    price; otherwise it raises [AttributeError] and returns nothing.
    Records with other codes are not looked at. *)
Theorem seller_create_prices_outcome watch_remnants offer_ids :
  Seller.create_prices watch_remnants offer_ids
  = if forallb (fun w => Spec.is_text (Цена w))
               (Spec.with_code_in offer_ids watch_remnants)
    then Ok (map (fun w =>
                    {| Seller.Price.auto_action_enabled := "UNKNOWN";
                       Seller.Price.currency_code := "RUB";
                       Seller.Price.offer_id := Spec.code_of w;
                       Seller.Price.old_price := "0";
                       Seller.Price.price :=
                         price_conversion (Spec.cell_text (Цена w)) |})
                 (Spec.with_code_in offer_ids watch_remnants))
    else Raise AttributeError.
Proof.
  unfold Seller.create_prices. now rewrite seller_prices_loop_total.
Qed.

Lemma market_price_of_number c v :
  Market.price_of c = Ok v -> Spec.price_ok c /\ v = Spec.price_number c /\ (0 <= v)%Z.
Proof.
  destruct c as [s|z]; simpl; [|discriminate].
  destruct (py_int_str (price_conversion s)) as [z|] eqn:Hz; [|discriminate].
  unfold Ok. intros H. injection H as <-.
  assert (Hne : price_conversion s <> "").
  { intros He. rewrite He in Hz. discriminate Hz. }
  split; [now exists s|].
  unfold Spec.price_number. simpl. rewrite Hz. split; [reflexivity|].
  destruct (py_int_str_decimal (price_conversion s)) as [z' [Hz' Hpos]].
  - unfold Spec.decimal_string. apply andb_true_iff. split.
    + apply negb_true_iff. now apply String.eqb_neq.
    + rewrite price_conversion_spec. apply keep_digits_all_digits.
  - congruence.
Qed.

Lemma market_prices_loop_returns feed : forall acc ids prices,
  Market.prices_loop feed acc ids = Ok prices ->
  Forall (fun w => Spec.price_ok (Цена w)) (Spec.with_code_in ids feed)
  /\ prices = acc ++ map (fun w => market_price (Spec.code_of w)
                                     (Spec.price_number (Цена w)))
                         (Spec.with_code_in ids feed)
  /\ Forall (fun w => (0 <= Spec.price_number (Цена w))%Z) (Spec.with_code_in ids feed).
Proof.
  induction feed as [|w rest IH]; intros acc ids prices; simpl.
  - unfold Ok. intros H. injection H as <-. rewrite app_nil_r. now repeat split.
  - fold (Spec.code_of w). destruct (py_in (Spec.code_of w) ids); [|apply IH].
    destruct (Market.price_of (Цена w)) as [e|v] eqn:Hv; simpl; [discriminate|].
    destruct (market_price_of_number _ _ Hv) as [Hok [-> Hpos]].
    intros H. destruct (IH _ _ _ H) as [H1 [H2 H3]].
    split; [now constructor|]. split; [|now constructor].
    rewrite H2. unfold market_price. now rewrite <- app_assoc.
Qed.

Lemma market_prices_loop_accepts feed : forall acc ids,
  Forall (fun w => Spec.price_ok (Цена w)) (Spec.with_code_in ids feed) ->
  exists prices, Market.prices_loop feed acc ids = Ok prices.
Proof.
  induction feed as [|w rest IH]; intros acc ids; simpl.
  - intros _. now exists acc.
  - fold (Spec.code_of w). destruct (py_in (Spec.code_of w) ids); [|apply IH].
    intros H. inversion H as [|? ? Hw Hrest]; subst.
    destruct (market_price_of_ok _ Hw) as [v ->]. simpl. now apply IH.
Qed.

(** X7.  Market's [create_prices] returns a price list exactly when the
    price of every record whose code is in [offer_ids] is text with a
    digit before its first decimal point; the list then holds one entry per
    such record, in feed order, with the record's code, the whole number
    those digits write and the currency RUR. *)
Theorem market_create_prices_outcome watch_remnants offer_ids :
  ((exists prices, Market.create_prices watch_remnants offer_ids = Ok prices)
   <-> Forall (fun w => Spec.price_ok (Цена w))
              (Spec.with_code_in offer_ids watch_remnants))
  /\ forall prices,
      Market.create_prices watch_remnants offer_ids = Ok prices ->
      prices
      = map (fun w =>
               {| Market.Price.id := Spec.code_of w;
                  Market.Price.price :=
                    {| Market.PriceValue.value := Spec.price_number (Цена w);
                       Market.PriceValue.currencyId := "RUR" |} |})
            (Spec.with_code_in offer_ids watch_remnants).
Proof.
  unfold Market.create_prices. split; [split|].
  - intros [prices H]. now destruct (market_prices_loop_returns _ _ _ _ H).
  - apply market_prices_loop_accepts.
  - intros prices H. now destruct (market_prices_loop_returns _ _ _ _ H) as [_ [-> _]].
Qed.

Lemma market_create_prices_outcome_witness :
  ((exists prices, Market.create_prices Sample.feed Sample.offer_ids = Ok prices)
   <-> Forall (fun w => Spec.price_ok (Цена w))
              (Spec.with_code_in Sample.offer_ids Sample.feed))
  /\ (Market.create_prices Sample.feed Sample.offer_ids = Ok [market_price "A1" 100] ->
      [market_price "A1" 100]
      = map (fun w =>
               {| Market.Price.id := Spec.code_of w;
                  Market.Price.price :=
                    {| Market.PriceValue.value := Spec.price_number (Цена w);
                       Market.PriceValue.currencyId := "RUR" |} |})
            (Spec.with_code_in Sample.offer_ids Sample.feed)).
Proof.
  split.
  - exact (proj1 (market_create_prices_outcome Sample.feed Sample.offer_ids)).
  - exact (proj2 (market_create_prices_outcome Sample.feed Sample.offer_ids)
                 [market_price "A1" 100]).
Defined.

(** X8.  Market's [create_prices] never emits a negative price: a sign in
    the price text is dropped with the other characters that are not
    digits. *)
Theorem market_prices_not_negative watch_remnants offer_ids prices :
  Market.create_prices watch_remnants offer_ids = Ok prices ->
  Forall (fun p => (0 <= Market.PriceValue.value (Market.Price.price p))%Z) prices.
Proof.
  unfold Market.create_prices. intros H.
  destruct (market_prices_loop_returns _ _ _ _ H) as [_ [-> Hpos]].
  simpl. apply Forall_forall. intros p Hp. apply in_map_iff in Hp.
  destruct Hp as [w [<- Hw]]. simpl.
  exact (proj1 (Forall_forall _ _) Hpos w Hw).
Qed.

Lemma market_prices_not_negative_witness :
  Forall (fun p => (0 <= Market.PriceValue.value (Market.Price.price p))%Z)
         [market_price "A1" 100].
Proof.
  apply (market_prices_not_negative
           [Sample.record "A1" "3" "-100.50 руб."] ["A1"]).
  reflexivity.
Defined.

(** ** More on [divide] and on the requests *)

(** X9.  A step [n] that is not positive: with 0 [divide] raises
    [ValueError], for the empty list too; with a negative [n] it yields no
    batch at all, whatever the list holds. *)
Theorem divide_step_not_positive (A : Type) (lst : list A) (n : Z) :
  (n <= 0)%Z ->
  divide lst n = if (n =? 0)%Z then Raise ValueError else Ok [].
Proof.
  intros Hn. unfold divide, py_range.
  destruct (Z.eqb_spec n 0) as [->|Hne]; [reflexivity|].
  unfold range_len.
  destruct (Z.ltb_spec 0 n) as [H|_]; [lia|].
  destruct (Z.ltb_spec (Z.of_nat (List.length lst)) 0) as [H|_]; [lia|].
  reflexivity.
Qed.

Lemma divide_step_not_positive_witness :
  divide ["a"; "b"; "c"] (-2) = (if (-2 =? 0)%Z then Raise ValueError else Ok []).
Proof.
  apply (divide_step_not_positive string ["a"; "b"; "c"] (-2)%Z). discriminate.
Defined.

Lemma range_len_ceiling (len : nat) (n : Z) :
  (0 < n)%Z ->
  Z.of_nat (range_len 0 (Z.of_nat len) n) = ((Z.of_nat len + n - 1) / n)%Z
  /\ forall k, (k < range_len 0 (Z.of_nat len) n)%nat ->
               (Z.of_nat k * n < Z.of_nat len)%Z.
Proof.
  intros Hn. unfold range_len.
  destruct (Z.ltb_spec 0 n) as [_|H]; [|lia].
  destruct (Z.ltb_spec 0 (Z.of_nat len)) as [Hlen|Hlen].
  - replace (Z.of_nat len - 0 - 1)%Z with (Z.of_nat len - 1)%Z by lia.
    replace (Z.of_nat len + n - 1)%Z with (Z.of_nat len - 1 + 1 * n)%Z by lia.
    rewrite Z.div_add by lia.
    pose proof (Z.div_mod (Z.of_nat len - 1) n ltac:(lia)) as Hdm.
    pose proof (Z.mod_pos_bound (Z.of_nat len - 1) n Hn) as Hmod.
    assert (Hq : (0 <= (Z.of_nat len - 1) / n)%Z) by (apply Z.div_pos; lia).
    set (q := ((Z.of_nat len - 1) / n)%Z) in *.
    rewrite Z2Nat.id by lia. split; [reflexivity|].
    intros k Hk. assert (Z.of_nat k <= q)%Z by lia. nia.
  - replace (Z.of_nat len) with 0%Z by lia. simpl.
    rewrite Z.div_small by lia. split; [reflexivity|]. intros k Hk. lia.
Qed.

Lemma divide_batches_shape {A : Type} (lst : list A) (n : Z) batches :
  (0 < n)%Z -> divide lst n = Ok batches ->
  Forall (fun b => b <> [] /\ (Z.of_nat (List.length b) <= n)%Z) batches.
Proof.
  intros Hn. rewrite (divide_batches lst n Hn). unfold Ok. intros H.
  injection H as <-. apply Forall_forall. intros b Hb.
  apply in_map_iff in Hb. destruct Hb as [k [<- Hk]].
  apply in_seq in Hk. destruct Hk as [_ Hk]. simpl in Hk.
  pose proof (proj2 (range_len_ceiling (List.length lst) n Hn) k Hk) as Hlt.
  assert (Hlen : List.length (Spec.batch_at lst (Z.to_nat n) k)
                 = Nat.min (Z.to_nat n) (List.length lst - k * Z.to_nat n))
    by apply batch_at_length.
  split.
  - intros He. rewrite He in Hlen. simpl in Hlen. nia.
  - lia.
Qed.

(** X10.  For a positive [n], [divide] yields the quotient of the length
    by [n] rounded up as its number of batches, and no batch is empty. *)
Theorem divide_count_and_no_empty_batch (A : Type) (lst : list A) (n : Z) :
  (0 < n)%Z ->
  exists batches,
    divide lst n = Ok batches
    /\ Z.of_nat (List.length batches) = ((Z.of_nat (List.length lst) + n - 1) / n)%Z
    /\ Forall (fun b => b <> []) batches.
Proof.
  intros Hn. destruct (divide_ok lst n Hn) as [batches Hb].
  exists batches. split; [assumption|]. split.
  - rewrite (divide_batches lst n Hn) in Hb. unfold Ok in Hb. injection Hb as <-.
    rewrite length_map, length_seq.
    apply (proj1 (range_len_ceiling (List.length lst) n Hn)).
  - eapply Forall_impl; [|exact (divide_batches_shape lst n batches Hn Hb)].
    intros b [H _]. exact H.
Qed.

Lemma divide_count_and_no_empty_batch_witness :
  exists batches,
    divide ["a"; "b"; "c"] 2 = Ok batches
    /\ Z.of_nat (List.length batches)
       = ((Z.of_nat (List.length ["a"; "b"; "c"]) + 2 - 1) / 2)%Z
    /\ Forall (fun b => b <> []) batches.
Proof.
  apply (divide_count_and_no_empty_batch string ["a"; "b"; "c"] 2%Z). reflexivity.
Defined.

Lemma for_each_batch_accepted {A R : Type} (send : nat -> A -> result R)
    (P : A -> Prop) batches :
  (forall k b, P b -> exists r, send k b = Ok r) ->
  Forall P batches ->
  forall k, for_each_batch send k batches = Ok tt.
Proof.
  intros Hsend. induction 1 as [|b rest Hb Hrest IH]; intros k; simpl; [reflexivity|].
  destruct (Hsend k b Hb) as [r ->]. simpl. apply IH.
Qed.

Lemma send_batches_within {A R : Type} (send : nat -> list A -> result R)
    (l : list A) (n : Z) :
  (0 < n)%Z ->
  (forall k b, b <> [] -> (Z.of_nat (List.length b) <= n)%Z ->
               exists r, send k b = Ok r) ->
  exists batches,
    divide l n = Ok batches /\ for_each_batch send 0 batches = Ok tt.
Proof.
  intros Hn Hsend. destruct (divide_ok l n Hn) as [batches Hb].
  exists batches. split; [assumption|].
  apply (for_each_batch_accepted send
           (fun b => b <> [] /\ (Z.of_nat (List.length b) <= n)%Z)).
  - intros k b [H1 H2]. now apply Hsend.
  - now apply (divide_batches_shape l n).
Qed.

(** Splits a list into batches and sends them to a marketplace known to
    answer the batches within the limit. *)
Ltac send_within send l n Hsend :=
  let b := fresh "b" in
  let Hd := fresh "Hd" in
  let Hs := fresh "Hs" in
  destruct (send_batches_within send l n eq_refl Hsend) as [b [Hd Hs]];
  rewrite Hd; cbn [bind Ok]; rewrite Hs; cbn [bind Ok].

(** X11.  The seller functions never send an empty batch, nor one above
    their limit: [upload_stocks] and [main] succeed against a marketplace
    that is only known to answer stock requests of 1 to 100 entries, and
    [upload_prices] against one only known to answer price requests of 1
    to 1000 entries. *)
Theorem seller_requests_within_limits :
  (forall (response : Type) update_stocks watch_remnants offer_ids stocks ids',
      Seller.create_stocks watch_remnants offer_ids = (Ok stocks, ids') ->
      (forall k batch, batch <> [] -> (Z.of_nat (List.length batch) <= 100)%Z ->
                       exists r : response, update_stocks k batch = Ok r) ->
      Seller.upload_stocks response (Ok offer_ids) update_stocks watch_remnants
      = Ok (filter Spec.seller_nonzero stocks, stocks))
  /\ (forall (response : Type) update_price watch_remnants offer_ids prices,
        Seller.create_prices watch_remnants offer_ids = Ok prices ->
        (forall k batch, batch <> [] -> (Z.of_nat (List.length batch) <= 1000)%Z ->
                         exists r : response, update_price k batch = Ok r) ->
        Seller.upload_prices response (Ok offer_ids) update_price watch_remnants
        = Ok prices)
  /\ (forall (response : Type) update_stocks update_price watch_remnants offer_ids
             stocks ids' prices,
        Seller.create_stocks watch_remnants offer_ids = (Ok stocks, ids') ->
        Seller.create_prices watch_remnants ids' = Ok prices ->
        (forall k batch, batch <> [] -> (Z.of_nat (List.length batch) <= 100)%Z ->
                         exists r : response, update_stocks k batch = Ok r) ->
        (forall k batch, batch <> [] -> (Z.of_nat (List.length batch) <= 900)%Z ->
                         exists r : response, update_price k batch = Ok r) ->
        Seller.main response (Ok offer_ids) (Ok watch_remnants) update_stocks update_price
        = Ok (stocks, prices)).
Proof.
  split; [|split].
  - intros response us feed ids stocks ids' Hrun Hus.
    unfold Seller.upload_stocks. cbn [bind Ok]. rewrite Hrun. cbn [bind Ok fst].
    send_within us stocks 100%Z Hus.
    reflexivity.
  - intros response up feed ids prices Hrun Hup.
    unfold Seller.upload_prices. cbn [bind Ok]. rewrite Hrun. cbn [bind Ok].
    send_within up prices 1000%Z Hup.
    reflexivity.
  - intros response us up feed ids stocks ids' prices Hrun Hprices Hus Hup.
    unfold Seller.main. cbn [bind Ok]. rewrite Hrun. cbn [bind Ok].
    send_within us stocks 100%Z Hus.
    cbn [bind Ok]. rewrite Hprices. cbn [bind Ok].
    send_within up prices 900%Z Hup.
    reflexivity.
Qed.

Lemma picky_accepts {A : Type} (limit : Z) (k : nat) (batch : list A) :
  batch <> [] -> (Z.of_nat (List.length batch) <= limit)%Z ->
  exists r : unit, Sample.picky limit k batch = Ok r.
Proof.
  intros Hne Hle. exists tt. unfold Sample.picky.
  destruct batch; [congruence|].
  now rewrite (proj2 (Z.leb_le _ _) Hle).
Defined.

Lemma seller_requests_within_limits_witness :
  Seller.upload_stocks unit (Ok Sample.offer_ids) (Sample.picky 100) Sample.feed
  = Ok (filter Spec.seller_nonzero [seller_entry "A1" 100; seller_entry "A3" 0],
        [seller_entry "A1" 100; seller_entry "A3" 0])
  /\ Seller.upload_prices unit (Ok Sample.offer_ids) (Sample.picky 1000) Sample.feed
     = Ok [seller_price "A1" "100"]
  /\ Seller.main unit (Ok Sample.offer_ids) (Ok Sample.feed) (Sample.picky 100) (Sample.picky 900)
     = Ok ([seller_entry "A1" 100; seller_entry "A3" 0], []).
Proof.
  split; [|split].
  - apply (proj1 seller_requests_within_limits unit (Sample.picky 100)
                 Sample.feed Sample.offer_ids _ ["A3"]).
    + reflexivity.
    + apply picky_accepts.
  - apply (proj1 (proj2 seller_requests_within_limits) unit (Sample.picky 1000)
                 Sample.feed Sample.offer_ids).
    + reflexivity.
    + apply picky_accepts.
  - apply (proj2 (proj2 seller_requests_within_limits) unit (Sample.picky 100) (Sample.picky 900)
                 Sample.feed Sample.offer_ids _ ["A3"]).
    + reflexivity.
    + reflexivity.
    + apply picky_accepts.
    + apply picky_accepts.
Defined.

(** X12.  The market functions never send an empty batch, nor one above
    their limit: 2000 entries for [upload_stocks], 500 for
    [upload_prices]. *)
Theorem market_requests_within_limits :
  (forall (response : Type) utcnow update_stocks watch_remnants offer_ids
          warehouse_id stocks ids',
      Market.create_stocks utcnow watch_remnants offer_ids warehouse_id
      = (Ok stocks, ids') ->
      (forall k batch, batch <> [] -> (Z.of_nat (List.length batch) <= 2000)%Z ->
                       exists r : response, update_stocks k batch = Ok r) ->
      Market.upload_stocks response utcnow (Ok offer_ids) update_stocks
                           watch_remnants warehouse_id
      = Ok (filter Spec.market_nonzero stocks, stocks))
  /\ (forall (response : Type) update_price watch_remnants offer_ids prices,
        Market.create_prices watch_remnants offer_ids = Ok prices ->
        (forall k batch, batch <> [] -> (Z.of_nat (List.length batch) <= 500)%Z ->
                         exists r : response, update_price k batch = Ok r) ->
        Market.upload_prices response (Ok offer_ids) update_price watch_remnants
        = Ok prices).
Proof.
  split.
  - intros response utcnow us feed ids wh stocks ids' Hrun Hus.
    unfold Market.upload_stocks. cbn [bind Ok]. rewrite Hrun. cbn [bind Ok fst].
    send_within us stocks 2000%Z Hus.
    cbn [bind Ok].
    rewrite py_filter_count_not_zero; [reflexivity|].
    rewrite market_create_stocks_reconcile in Hrun.
    apply (reconcile_entries _ (fun e => Market.Stock.items e <> []) _ _ _ _) in Hrun;
      [tauto|].
    intros c n. discriminate.
  - intros response up feed ids prices Hrun Hup.
    unfold Market.upload_prices. cbn [bind Ok]. rewrite Hrun. cbn [bind Ok].
    send_within up prices 500%Z Hup.
    reflexivity.
Qed.

Lemma market_requests_within_limits_witness :
  Market.upload_stocks unit "2024-01-01T00:00:00" (Ok Sample.offer_ids) (Sample.picky 2000)
                       Sample.feed "w"
  = Ok (filter Spec.market_nonzero
               [market_entry "w" "2024-01-01T00:00:00Z" "A1" 100;
                market_entry "w" "2024-01-01T00:00:00Z" "A3" 0],
        [market_entry "w" "2024-01-01T00:00:00Z" "A1" 100;
         market_entry "w" "2024-01-01T00:00:00Z" "A3" 0])
  /\ Market.upload_prices unit (Ok Sample.offer_ids) (Sample.picky 500) Sample.feed
     = Ok [market_price "A1" 100].
Proof.
  split.
  - apply (proj1 market_requests_within_limits unit "2024-01-01T00:00:00" (Sample.picky 2000)
                 Sample.feed Sample.offer_ids "w" _ ["A3"]).
    + reflexivity.
    + apply picky_accepts.
  - apply (proj2 market_requests_within_limits unit (Sample.picky 500)
                 Sample.feed Sample.offer_ids).
    + reflexivity.
    + apply picky_accepts.
Defined.

(** ** The catalogue pagers *)

Lemma seller_pages_loop_paginate fetch fuel : forall k cursor held,
  Seller.Catalog.pages_loop fetch fuel k cursor held
  = paginate fetch Seller.Catalog.items Seller.Catalog.last_id seller_done
             fuel k cursor held.
Proof.
  induction fuel as [|fuel IH]; intros k cursor held; simpl; [reflexivity|].
  destruct (fetch k cursor) as [e|p]; [reflexivity|].
  unfold seller_done. now rewrite IH.
Qed.

Lemma market_pages_loop_paginate fetch fuel : forall k cursor held,
  Market.Catalog.pages_loop fetch fuel k cursor held
  = paginate fetch Market.Catalog.offerMappingEntries market_token market_done
             fuel k cursor held.
Proof.
  induction fuel as [|fuel IH]; intros k cursor held; simpl; [reflexivity|].
  destruct (fetch k cursor) as [e|p]; [reflexivity|].
  unfold market_done, market_token.
  destruct (Market.Catalog.nextPageToken (Market.Catalog.paging p)) as [t|];
    [|reflexivity].
  now rewrite IH.
Qed.

Section PaginateFacts.

Context {P I : Type}.
Variable fetch : nat -> string -> result P.
Variable items_of : P -> list I.
Variable next : P -> string.
Variable done : P -> list I -> bool.

Lemma all_items_cons p ps :
  all_items items_of (p :: ps) = items_of p ++ all_items items_of ps.
Proof. reflexivity. Qed.

Lemma paginate_stops ps pl : forall k cursor held fuel,
  served fetch next k cursor (ps ++ [pl]) ->
  keeps_going items_of done held ps = true ->
  done pl (held ++ all_items items_of (ps ++ [pl])) = true ->
  (List.length ps < fuel)%nat ->
  paginate fetch items_of next done fuel k cursor held
  = Some (Ok (held ++ all_items items_of (ps ++ [pl]))).
Proof.
  induction ps as [|p rest IH]; intros k cursor held fuel Hs Hgo Hdone Hfuel;
    (destruct fuel as [|fuel]; [simpl in Hfuel; lia|]);
    inversion Hs as [|? ? ? ? Hfetch Hrest]; subst;
    cbn [app] in *; rewrite all_items_cons in *; cbn [paginate]; rewrite Hfetch;
    unfold Ok at 1; cbv iota beta.
  - unfold all_items in *. cbn [map List.concat] in *.
    rewrite app_nil_r in *. now rewrite Hdone.
  - simpl in Hgo. apply andb_true_iff in Hgo. destruct Hgo as [Hp Hgo].
    apply negb_true_iff in Hp. rewrite Hp.
    rewrite (IH (S k) (next p) (held ++ items_of p) fuel Hrest Hgo).
    + now rewrite <- app_assoc.
    + rewrite <- app_assoc. exact Hdone.
    + simpl in Hfuel. lia.
Qed.

Lemma paginate_raises ps e : forall k cursor held fuel,
  served fetch next k cursor ps ->
  keeps_going items_of done held ps = true ->
  fetch (k + List.length ps) (cursor_after next cursor ps) = Raise e ->
  (List.length ps < fuel)%nat ->
  paginate fetch items_of next done fuel k cursor held = Some (Raise e).
Proof.
  induction ps as [|p rest IH]; intros k cursor held fuel Hs Hgo He Hfuel;
    (destruct fuel as [|fuel]; [simpl in Hfuel; lia|]); simpl.
  - simpl in He. rewrite Nat.add_0_r in He. now rewrite He.
  - inversion Hs as [|? ? ? ? Hfetch Hrest]; subst. rewrite Hfetch.
    unfold Ok at 1. cbv iota beta.
    simpl in Hgo. apply andb_true_iff in Hgo. destruct Hgo as [Hp Hgo].
    apply negb_true_iff in Hp. rewrite Hp.
    apply (IH (S k) (next p) (held ++ items_of p) fuel Hrest Hgo).
    + simpl in He. now rewrite Nat.add_succ_r in He.
    + simpl in Hfuel. lia.
Qed.

Lemma paginate_never_stops (Inv : list I -> Prop) fuel : forall k cursor held,
  (forall k c, exists p,
      fetch k c = Ok p
      /\ forall h, Inv h -> done p (h ++ items_of p) = false /\ Inv (h ++ items_of p)) ->
  Inv held ->
  paginate fetch items_of next done fuel k cursor held = None.
Proof.
  induction fuel as [|fuel IH]; intros k cursor held Hall Hinv; simpl; [reflexivity|].
  destruct (Hall k cursor) as [p [-> Hp]]. unfold Ok at 1. cbv iota beta.
  destruct (Hp held Hinv) as [-> Hinv']. now apply IH.
Qed.

End PaginateFacts.

Lemma seller_whole_catalogue fetch ps : forall k cursor held fuel,
  served fetch Seller.Catalog.last_id k cursor ps ->
  ps <> [] ->
  Forall (fun p => Seller.Catalog.total p
                   = Z.of_nat (List.length
                                 (held ++ all_items Seller.Catalog.items ps))) ps ->
  (List.length ps <= fuel)%nat ->
  Seller.Catalog.pages_loop fetch fuel k cursor held
  = Some (Ok (held ++ all_items Seller.Catalog.items ps)).
Proof.
  induction ps as [|p rest IH]; intros k cursor held fuel Hs Hne Htot Hfuel;
    [congruence|].
  destruct fuel as [|fuel]; [simpl in Hfuel; lia|].
  inversion Hs as [|? ? ? ? Hfetch Hrest]; subst.
  cbn [Seller.Catalog.pages_loop]. rewrite Hfetch. unfold Ok at 1. cbv iota beta zeta.
  inversion Htot as [|? ? Hp Hothers]; subst.
  rewrite all_items_cons in *.
  destruct (Z.eqb_spec (Seller.Catalog.total p)
              (Z.of_nat (List.length (held ++ Seller.Catalog.items p)))) as [He|Hn].
  - assert (Hnil : all_items Seller.Catalog.items rest = []).
    { apply length_zero_iff_nil. rewrite Hp, !length_app in He. lia. }
    now rewrite Hnil, app_nil_r.
  - assert (Hrne : rest <> []).
    { intros ->. apply Hn. rewrite Hp. unfold all_items. simpl.
      now rewrite app_nil_r. }
    rewrite (IH (S k) (Seller.Catalog.last_id p) (held ++ Seller.Catalog.items p) fuel
                Hrest Hrne).
    + now rewrite <- app_assoc.
    + eapply Forall_impl; [|exact Hothers]. intros q Hq. simpl in Hq.
      now rewrite <- app_assoc.
    + simpl in Hfuel. lia.
Qed.

(** X13.  Seller's [get_offer_ids] stops at the first page whose [total]
    is the number of items received so far, each request after the first
    being made with the [last_id] of the page before; it returns the
    [offer_id] of every item received, in the order received, and asks for
    no further page. *)
Theorem seller_get_offer_ids_stops get_product_list pages last_page fuel :
  served get_product_list Seller.Catalog.last_id 0 "" (pages ++ [last_page]) ->
  keeps_going Seller.Catalog.items seller_done [] pages = true ->
  Seller.Catalog.total last_page
  = Z.of_nat (List.length (all_items Seller.Catalog.items (pages ++ [last_page]))) ->
  (List.length pages < fuel)%nat ->
  Seller.Catalog.get_offer_ids get_product_list fuel
  = Some (Ok (map Seller.Catalog.offer_id
                  (all_items Seller.Catalog.items (pages ++ [last_page])))).
Proof.
  intros Hs Hgo Htot Hfuel. unfold Seller.Catalog.get_offer_ids.
  rewrite seller_pages_loop_paginate.
  rewrite (paginate_stops _ _ _ _ pages last_page 0 "" [] fuel Hs Hgo); try assumption.
  - reflexivity.
  - unfold seller_done. simpl. now apply Z.eqb_eq.
Qed.

Lemma seller_shop_served :
  served Sample.seller_shop Seller.Catalog.last_id 0 ""
         ([Sample.seller_page0] ++ [Sample.seller_page1]).
Proof.
  apply served_cons; [reflexivity|].
  apply served_cons; [reflexivity|]. apply served_nil.
Defined.

Lemma seller_get_offer_ids_stops_witness :
  Seller.Catalog.get_offer_ids Sample.seller_shop 5
  = Some (Ok (map Seller.Catalog.offer_id
                  (all_items Seller.Catalog.items
                             ([Sample.seller_page0] ++ [Sample.seller_page1])))).
Proof.
  apply (seller_get_offer_ids_stops Sample.seller_shop
           [Sample.seller_page0] Sample.seller_page1 5).
  - exact seller_shop_served.
  - reflexivity.
  - reflexivity.
  - simpl. lia.
Defined.

(** X14.  When every page reports as [total] the size of the whole
    catalogue, seller's [get_offer_ids] returns the [offer_id] of every
    product of the catalogue, in page order, as soon as the fuel covers the
    pages. *)
Theorem seller_get_offer_ids_complete get_product_list pages fuel :
  served get_product_list Seller.Catalog.last_id 0 "" pages ->
  pages <> [] ->
  Forall (fun p => Seller.Catalog.total p
                   = Z.of_nat (List.length (all_items Seller.Catalog.items pages)))
         pages ->
  (List.length pages <= fuel)%nat ->
  Seller.Catalog.get_offer_ids get_product_list fuel
  = Some (Ok (map Seller.Catalog.offer_id (all_items Seller.Catalog.items pages))).
Proof.
  intros Hs Hne Htot Hfuel. unfold Seller.Catalog.get_offer_ids.
  now rewrite (seller_whole_catalogue get_product_list pages 0 "" [] fuel Hs Hne Htot Hfuel).
Qed.

Lemma seller_get_offer_ids_complete_witness :
  Seller.Catalog.get_offer_ids Sample.seller_shop 2
  = Some (Ok (map Seller.Catalog.offer_id
                  (all_items Seller.Catalog.items
                             [Sample.seller_page0; Sample.seller_page1]))).
Proof.
  apply (seller_get_offer_ids_complete Sample.seller_shop
           [Sample.seller_page0; Sample.seller_page1] 2).
  - exact seller_shop_served.
  - discriminate.
  - apply Forall_cons; [reflexivity|]. apply Forall_cons; [reflexivity|].
    apply Forall_nil.
  - simpl. lia.
Defined.

(** X15.  A request that fails ends seller's [get_offer_ids] with the
    exception of that request: the items of the pages received before it
    are not returned. *)
Theorem seller_get_offer_ids_raises get_product_list pages e fuel :
  served get_product_list Seller.Catalog.last_id 0 "" pages ->
  keeps_going Seller.Catalog.items seller_done [] pages = true ->
  get_product_list (List.length pages) (cursor_after Seller.Catalog.last_id "" pages)
  = Raise e ->
  (List.length pages < fuel)%nat ->
  Seller.Catalog.get_offer_ids get_product_list fuel = Some (Raise e).
Proof.
  intros Hs Hgo He Hfuel. unfold Seller.Catalog.get_offer_ids.
  rewrite seller_pages_loop_paginate.
  now rewrite (paginate_raises _ _ _ _ pages e 0 "" [] fuel Hs Hgo He Hfuel).
Qed.

Lemma seller_get_offer_ids_raises_witness :
  Seller.Catalog.get_offer_ids Sample.seller_shop_down 7 = Some (Raise ConnectionError).
Proof.
  apply (seller_get_offer_ids_raises Sample.seller_shop_down [Sample.seller_page0]).
  - apply served_cons; [reflexivity|apply served_nil].
  - reflexivity.
  - reflexivity.
  - simpl. lia.
Defined.

(** X16.  Once seller's loop holds more items than the total the
    marketplace reports from then on, it never reaches its [break]: no
    number of turns ends it. *)
Theorem seller_pages_loop_overshoot get_product_list (bound : Z) fuel k last_id
    product_list :
  (bound < Z.of_nat (List.length product_list))%Z ->
  (forall k c, exists p, get_product_list k c = Ok p
                         /\ (Seller.Catalog.total p <= bound)%Z) ->
  Seller.Catalog.pages_loop get_product_list fuel k last_id product_list = None.
Proof.
  intros Hover Hall. rewrite seller_pages_loop_paginate.
  apply (paginate_never_stops _ _ _ _
           (fun h => (bound < Z.of_nat (List.length h))%Z)); [|assumption].
  intros k' c. destruct (Hall k' c) as [p [Hp Hle]]. exists p.
  split; [assumption|]. intros h Hh. unfold seller_done. rewrite length_app.
  split; [apply Z.eqb_neq|]; lia.
Qed.

Lemma seller_pages_loop_overshoot_witness :
  Seller.Catalog.pages_loop Sample.seller_shop_over 50 1 "c1"
    [{| Seller.Catalog.offer_id := "A1" |}; {| Seller.Catalog.offer_id := "A2" |}]
  = None.
Proof.
  apply (seller_pages_loop_overshoot Sample.seller_shop_over 1%Z).
  - reflexivity.
  - intros k c. eexists. split; [reflexivity|]. simpl. lia.
Defined.

(** X17.  Market's [get_offer_ids] stops at the first page whose
    [nextPageToken] is absent or empty, each request after the first being
    made with the token of the page before; it returns the [shopSku] of
    every entry received, in the order received, and asks for no further
    page. *)
Theorem market_get_offer_ids_stops get_product_list pages last_page fuel :
  served get_product_list market_token 0 "" (pages ++ [last_page]) ->
  Forall (fun p => market_token p <> "") pages ->
  market_token last_page = "" ->
  (List.length pages < fuel)%nat ->
  Market.Catalog.get_offer_ids get_product_list fuel
  = Some (Ok (map (fun product => Market.Catalog.shopSku (Market.Catalog.offer product))
                  (all_items Market.Catalog.offerMappingEntries
                             (pages ++ [last_page])))).
Proof.
  intros Hs Hgo Hlast Hfuel. unfold Market.Catalog.get_offer_ids.
  rewrite market_pages_loop_paginate.
  rewrite (paginate_stops _ _ _ _ pages last_page 0 "" [] fuel Hs); try assumption.
  - reflexivity.
  - generalize (@nil Market.Catalog.entry). clear Hs Hfuel.
    induction Hgo as [|p rest Hp Hrest IH]; intros held; simpl; [reflexivity|].
    unfold market_done at 1. apply String.eqb_neq in Hp. rewrite Hp. simpl.
    apply IH.
  - unfold market_done. now rewrite Hlast.
Qed.

Lemma market_get_offer_ids_stops_witness :
  Market.Catalog.get_offer_ids Sample.market_shop 5
  = Some (Ok (map (fun product => Market.Catalog.shopSku (Market.Catalog.offer product))
                  (all_items Market.Catalog.offerMappingEntries
                     ([Sample.market_page ["A1"; "A2"] (Some "t1")]
                      ++ [Sample.market_page ["A3"] None])))).
Proof.
  apply (market_get_offer_ids_stops Sample.market_shop
           [Sample.market_page ["A1"; "A2"] (Some "t1")]
           (Sample.market_page ["A3"] None) 5).
  - apply served_cons; [reflexivity|].
    apply served_cons; [reflexivity|]. apply served_nil.
  - apply Forall_cons; [discriminate|apply Forall_nil].
  - reflexivity.
  - simpl. lia.
Defined.

(** X18.  A request that fails ends market's [get_offer_ids] with the
    exception of that request: the entries of the pages received before it
    are not returned. *)
Theorem market_get_offer_ids_raises get_product_list pages e fuel :
  served get_product_list market_token 0 "" pages ->
  Forall (fun p => market_token p <> "") pages ->
  get_product_list (List.length pages) (cursor_after market_token "" pages) = Raise e ->
  (List.length pages < fuel)%nat ->
  Market.Catalog.get_offer_ids get_product_list fuel = Some (Raise e).
Proof.
  intros Hs Hgo He Hfuel. unfold Market.Catalog.get_offer_ids.
  rewrite market_pages_loop_paginate.
  rewrite (paginate_raises _ _ _ _ pages e 0 "" [] fuel Hs); try assumption.
  - reflexivity.
  - generalize (@nil Market.Catalog.entry). clear Hs Hfuel He.
    induction Hgo as [|p rest Hp Hrest IH]; intros held; simpl; [reflexivity|].
    unfold market_done at 1. apply String.eqb_neq in Hp. rewrite Hp. simpl.
    apply IH.
Qed.

Lemma market_get_offer_ids_raises_witness :
  Market.Catalog.get_offer_ids Sample.market_shop_down 7 = Some (Raise ConnectionError).
Proof.
  apply (market_get_offer_ids_raises Sample.market_shop_down
           [Sample.market_page ["A1"; "A2"] (Some "t1")]).
  - apply served_cons; [reflexivity|apply served_nil].
  - apply Forall_cons; [discriminate|apply Forall_nil].
  - reflexivity.
  - simpl. lia.
Defined.

(** X19.  Against a marketplace whose every page carries a token that is
    not empty, market's [get_offer_ids] never returns: no number of turns
    reaches the [break]. *)
Theorem market_get_offer_ids_endless get_product_list fuel :
  (forall k c, exists p, get_product_list k c = Ok p /\ market_token p <> "") ->
  Market.Catalog.get_offer_ids get_product_list fuel = None.
Proof.
  intros Hall. unfold Market.Catalog.get_offer_ids.
  rewrite market_pages_loop_paginate.
  rewrite (paginate_never_stops _ _ _ _ (fun _ => True)); [reflexivity| |exact I].
  intros k c. destruct (Hall k c) as [p [Hp Ht]]. exists p.
  split; [assumption|]. intros h _. unfold market_done.
  split; [now apply String.eqb_neq|exact I].
Qed.

Lemma market_get_offer_ids_endless_witness :
  Market.Catalog.get_offer_ids Sample.market_shop_loop 1000 = None.
Proof.
  apply (market_get_offer_ids_endless Sample.market_shop_loop).
  intros k c. eexists. split; [reflexivity|]. discriminate.
Defined.

(** ** Failing requests, and the requests [main] makes *)

Lemma for_each_batch_first_failure {A R : Type} (send : nat -> A -> result R)
    pre b post e : forall k,
  (forall i x, nth_error pre i = Some x -> exists r, send (k + i)%nat x = Ok r) ->
  send (k + List.length pre)%nat b = Raise e ->
  for_each_batch send k (pre ++ b :: post) = Raise e.
Proof.
  induction pre as [|x rest IH]; intros k Hpre Hb; simpl.
  - simpl in Hb. rewrite Nat.add_0_r in Hb. now rewrite Hb.
  - destruct (Hpre 0%nat x eq_refl) as [r Hr]. rewrite Nat.add_0_r in Hr.
    rewrite Hr. simpl. apply IH.
    + intros i y Hy. rewrite Nat.add_succ_comm. now apply Hpre.
    + simpl in Hb. now rewrite Nat.add_succ_comm.
Qed.

(** X20.  In [upload_stocks] the first request that fails ends the call
    with the exception of that request, whatever the marketplace would
    have answered to the batches after it; neither list is returned. *)
Theorem upload_stocks_first_failure :
  (forall (response : Type) update_stocks watch_remnants offer_ids stocks ids'
          sent batch rest e,
      Seller.create_stocks watch_remnants offer_ids = (Ok stocks, ids') ->
      divide stocks 100 = Ok (sent ++ batch :: rest) ->
      (forall i b, nth_error sent i = Some b ->
                   exists r : response, update_stocks i b = Ok r) ->
      update_stocks (List.length sent) batch = Raise e ->
      Seller.upload_stocks response (Ok offer_ids) update_stocks watch_remnants
      = Raise e)
  /\ (forall (response : Type) utcnow update_stocks watch_remnants offer_ids
             warehouse_id stocks ids' sent batch rest e,
        Market.create_stocks utcnow watch_remnants offer_ids warehouse_id
        = (Ok stocks, ids') ->
        divide stocks 2000 = Ok (sent ++ batch :: rest) ->
        (forall i b, nth_error sent i = Some b ->
                     exists r : response, update_stocks i b = Ok r) ->
        update_stocks (List.length sent) batch = Raise e ->
        Market.upload_stocks response utcnow (Ok offer_ids) update_stocks
                             watch_remnants warehouse_id
        = Raise e).
Proof.
  split.
  - intros response us feed ids stocks ids' sent batch rest e Hrun Hdiv Hsent Hfail.
    unfold Seller.upload_stocks. cbn [bind Ok]. rewrite Hrun. cbn [bind Ok fst].
    rewrite Hdiv. cbn [bind Ok].
    now rewrite (for_each_batch_first_failure us sent batch rest e 0 Hsent Hfail).
  - intros response utcnow us feed ids wh stocks ids' sent batch rest e
           Hrun Hdiv Hsent Hfail.
    unfold Market.upload_stocks. cbn [bind Ok]. rewrite Hrun. cbn [bind Ok fst].
    rewrite Hdiv. cbn [bind Ok].
    now rewrite (for_each_batch_first_failure us sent batch rest e 0 Hsent Hfail).
Qed.

Lemma upload_stocks_first_failure_witness :
  Seller.upload_stocks unit (Ok (map (fun n => py_str (VInt (Z.of_nat n))) (seq 0 250)))
                       Sample.once []
  = Raise ReadTimeout.
Proof.
  set (ids := map (fun n => py_str (VInt (Z.of_nat n))) (seq 0 250)).
  set (stocks := map (fun c => seller_entry c 0) ids).
  apply (proj1 upload_stocks_first_failure unit Sample.once [] ids stocks ids
               [firstn 100 stocks] (firstn 100 (skipn 100 stocks))
               [skipn 200 stocks] ReadTimeout).
  - reflexivity.
  - vm_compute. reflexivity.
  - intros i b Hi. exists tt. destruct i as [|i]; [reflexivity|].
    destruct i; discriminate Hi.
  - reflexivity.
Defined.

(** X21.  With no duplicate among the remote SKUs, [main] of seller makes
    no price request at all: once its stock requests are answered it ends
    with an empty price list, whatever the marketplace would answer to a
    price request. *)
Theorem seller_main_makes_no_price_request (response : Type) update_stocks update_price
    watch_remnants offer_ids stocks ids' :
  NoDup offer_ids ->
  Seller.create_stocks watch_remnants offer_ids = (Ok stocks, ids') ->
  (forall k batch, batch <> [] -> (Z.of_nat (List.length batch) <= 100)%Z ->
                   exists r : response, update_stocks k batch = Ok r) ->
  Seller.main response (Ok offer_ids) (Ok watch_remnants) update_stocks update_price
  = Ok (stocks, []).
Proof.
  intros Hnd Hrun Hus. unfold Seller.main. cbn [bind Ok]. rewrite Hrun. cbn [bind Ok].
  send_within update_stocks stocks 100%Z Hus.
  rewrite seller_create_stocks_reconcile in Hrun.
  destruct (reconcile_entries seller_entry (fun _ => True) _ _ _ _
              (fun _ _ => I) Hrun) as [_ ->].
  unfold Seller.create_prices. rewrite prices_loop_no_match.
  - reflexivity.
  - intros w Hw. rewrite (remaining_filter _ _ Hnd), filter_In.
    intros [_ Hc]. apply negb_true_iff, py_in_false in Hc. apply Hc.
    unfold Spec.codes. now apply in_map.
Qed.

Lemma seller_main_makes_no_price_request_witness :
  Seller.main unit (Ok Sample.offer_ids) (Ok Sample.feed) (Sample.picky 100)
              (fun _ _ => Raise HTTPError)
  = Ok ([seller_entry "A1" 100; seller_entry "A3" 0], []).
Proof.
  apply (seller_main_makes_no_price_request unit (Sample.picky 100)
           (fun _ _ => Raise HTTPError) Sample.feed Sample.offer_ids _ ["A3"]).
  - exact sample_offer_ids_NoDup.
  - reflexivity.
  - apply picky_accepts.
Defined.

Lemma py_in_same_members c (l1 l2 : list string) :
  (forall x, In x l1 <-> In x l2) -> py_in c l1 = py_in c l2.
Proof.
  intros H. destruct (py_in c l2) eqn:H2.
  - apply py_in_In. apply H. now apply py_in_In.
  - apply py_in_false. intros H1. apply py_in_false in H2. apply H2. now apply H.
Qed.

(** X22.  [create_prices] looks at [offer_ids] for membership only: two
    lists with the same members, in whatever order and however often
    repeated, give the same outcome, in both channels. *)
Theorem create_prices_membership_only watch_remnants offer_ids offer_ids' :
  (forall c, In c offer_ids <-> In c offer_ids') ->
  Seller.create_prices watch_remnants offer_ids
  = Seller.create_prices watch_remnants offer_ids'
  /\ Market.create_prices watch_remnants offer_ids
     = Market.create_prices watch_remnants offer_ids'.
Proof.
  intros Hsame. unfold Seller.create_prices, Market.create_prices. split.
  - generalize (@nil Seller.Price.t).
    induction watch_remnants as [|w rest IH]; intros acc; simpl; [reflexivity|].
    rewrite (py_in_same_members _ offer_ids offer_ids' Hsame).
    destruct (py_in _ offer_ids'); [|apply IH].
    destruct (Seller.price_of (Цена w)); simpl; [reflexivity|apply IH].
  - generalize (@nil Market.Price.t).
    induction watch_remnants as [|w rest IH]; intros acc; simpl; [reflexivity|].
    rewrite (py_in_same_members _ offer_ids offer_ids' Hsame).
    destruct (py_in _ offer_ids'); [|apply IH].
    destruct (Market.price_of (Цена w)); simpl; [reflexivity|apply IH].
Qed.

Lemma create_prices_membership_only_witness :
  Seller.create_prices Sample.feed ["A1"; "A3"]
  = Seller.create_prices Sample.feed ["A3"; "A1"; "A3"]
  /\ Market.create_prices Sample.feed ["A1"; "A3"]
     = Market.create_prices Sample.feed ["A3"; "A1"; "A3"].
Proof.
  apply (create_prices_membership_only Sample.feed ["A1"; "A3"] ["A3"; "A1"; "A3"]).
  intros c. simpl. tauto.
Defined.

Example ascii_text_examples :
  Spec.ascii_text "abc" = true /\ Spec.ascii_text " 7_0 " = true
  /\ Spec.ascii_text "７" = false /\ Spec.ascii_text "12 руб" = false.
Proof. repeat split; reflexivity. Qed.
